(** * Smart home agent: device registry, command dispatcher, rule executor
      and suggestion engine

    A shallow embedding of [smart_home_agent.py] (class [SmartHomeAgent]).

    - Python dictionaries with string keys are [gmap string _].
    - The values stored in property bags and passed as keyword arguments
      are the scalar Python values the program uses: [None], booleans,
      integers and strings.
    - The methods mutate [self] and read the wall clock; they are embedded
      in a state monad over a [World] (the agent plus the clock), with an
      exception layer for the one fault the dispatch code can raise.
    - Every registry key holds a [Device] object of its own, as
      [setup_default_devices] builds them; a method that mutates the object
      it fetched is embedded as rewriting the registry entry it was fetched
      from. *)

From Stdlib Require Import ZArith String DecimalString.
From stdpp Require Import gmap strings list fin_maps.

(** ** Python values *)

Inductive value : Type :=
| VNone
| VBool (b : bool)
| VInt (n : Z)
| VStr (s : string).

#[global] Instance value_eq_dec : EqDecision value.
Proof. solve_decision. Defined.

(** [str(v)], as an f-string formats a value. *)
Definition py_str (v : value) : string :=
  match v with
  | VNone => "None"
  | VBool true => "True"
  | VBool false => "False"
  | VInt n => NilZero.string_of_int (Z.to_int n)
  | VStr s => s
  end.

(** Truth value of an object, as [not v] tests it. *)
Definition truthy (v : value) : bool :=
  match v with
  | VNone => false
  | VBool b => b
  | VInt n => negb (n =? 0)%Z
  | VStr s => negb (String.eqb s "")
  end.

(** ** Enumerations *)

Inductive DeviceType : Type :=
| LIGHT | THERMOSTAT | SECURITY_CAMERA | DOOR_LOCK | MOTION_SENSOR.

Inductive DeviceStatus : Type :=
| ON | OFF | ACTIVE | INACTIVE.

#[global] Instance DeviceType_eq_dec : EqDecision DeviceType.
Proof. solve_decision. Defined.

#[global] Instance DeviceStatus_eq_dec : EqDecision DeviceStatus.
Proof. solve_decision. Defined.

(** ** Wall-clock time

    [datetime.time] objects compare as the tuples
    [(hour, minute, second, microsecond)]. *)

Record time : Type := mk_time {
  hour : Z;
  minute : Z;
  second : Z;
  microsecond : Z
}.

Definition lex (c : comparison) (k : comparison) : comparison :=
  match c with
  | Eq => k
  | _ => c
  end.

Definition time_cmp (a b : time) : comparison :=
  lex (hour a ?= hour b)%Z
    (lex (minute a ?= minute b)%Z
       (lex (second a ?= second b)%Z
          (microsecond a ?= microsecond b)%Z)).

(** [a <= b] on [datetime.time]. *)
Definition time_le (a b : time) : bool :=
  match time_cmp a b with
  | Gt => false
  | _ => true
  end.

(** [time(h, m)]: seconds and microseconds default to zero. *)
Definition time_hm (h m : Z) : time := mk_time h m 0 0.

(** A [datetime]: a day number and the time of day; [.time()] is
    [dt_time]. *)
Record datetime : Type := mk_datetime {
  dt_day : Z;
  dt_time : time
}.

(** ** Records *)

Module Device.
Record t : Type := mk {
  id : string;
  name : string;
  type : DeviceType;
  status : DeviceStatus;
  location : string;
  properties : gmap string value;
  last_updated : datetime
}.

(** Attribute assignments [device.status = s],
    [device.properties[k] = v] and [device.last_updated = now]. *)
Definition set_status (s : DeviceStatus) (d : t) : t :=
  mk (id d) (name d) (type d) s (location d) (properties d)
     (last_updated d).

Definition set_property (k : string) (v : value) (d : t) : t :=
  mk (id d) (name d) (type d) (status d) (location d)
     (<[k := v]> (properties d)) (last_updated d).

Definition set_last_updated (now : datetime) (d : t) : t :=
  mk (id d) (name d) (type d) (status d) (location d) (properties d) now.
End Device.

Abbreviation Device := Device.t.

(** The values found in [trigger_conditions]; no method reads them. *)
Inductive condition : Type :=
| CondFlag (b : bool)
| CondMinutes (n : Z)
| CondTime (at_time : string)
| CondRange (start_time end_time : string).

Module ContextualRule.
Record t : Type := mk {
  id : string;
  name : string;
  trigger_conditions : gmap string condition;
  actions : list (gmap string value);
  enabled : bool;
  priority : Z
}.
End ContextualRule.

Abbreviation ContextualRule := ContextualRule.t.

Module Suggestion.
Record t : Type := mk {
  id : string;
  type : string;
  title : string;
  description : string;
  actions : list string;
  priority : string
}.
End Suggestion.

Abbreviation Suggestion := Suggestion.t.

#[global] Instance Suggestion_eq_dec : EqDecision Suggestion.
Proof. solve_decision. Defined.

(** The attributes of a [SmartHomeAgent] instance. *)
Record SmartHomeAgent : Type := mk_agent {
  devices : gmap string Device;
  contextual_rules : gmap string ContextualRule;
  user_preferences : gmap string value;
  occupancy_status : gmap string bool
}.

(** The agent together with the clock it reads: [clock n] is what the
    [n]-th call of [datetime.now()] returns, [ticks] counts the calls made
    so far. *)
Record World : Type := mk_world {
  agent : SmartHomeAgent;
  clock : nat → datetime;
  ticks : nat
}.

Definition with_devices (ds : gmap string Device) (w : World) : World :=
  mk_world
    (mk_agent ds (contextual_rules (agent w)) (user_preferences (agent w))
       (occupancy_status (agent w)))
    (clock w) (ticks w).

(** ** The monad of methods: state and exceptions *)

Inductive exn : Type :=
| TypeError (msg : string).

Inductive outcome (A : Type) : Type :=
| Ret (a : A)
| Raise (e : exn).

Arguments Ret {A} a.
Arguments Raise {A} e.

Definition M (A : Type) : Type := World → outcome A * World.

#[global] Instance M_ret : MRet M := λ A a w, (Ret a, w).

#[global] Instance M_bind : MBind M := λ A B f m w,
  match m w with
  | (Ret a, w') => f a w'
  | (Raise e, w') => (Raise e, w')
  end.

Definition gets {A : Type} (f : World → A) : M A := λ w, (Ret (f w), w).

Definition modify (f : World → World) : M unit := λ w, (Ret tt, f w).

Definition raise {A : Type} (e : exn) : M A := λ w, (Raise e, w).

(** [datetime.now()]. *)
Definition now : M datetime :=
  λ w, (Ret (clock w (ticks w)), mk_world (agent w) (clock w) (S (ticks w))).

(** ** Device registry *)

(** [self.devices.get(device_id)]: the registry is keyed by strings, so
    only a string can resolve. *)
Definition lookup_device (device_id : value) (ds : gmap string Device)
  : option Device :=
  match device_id with
  | VStr k => ds !! k
  | _ => None
  end.

Definition get_device (device_id : value) : M (option Device) :=
  gets (λ w, lookup_device device_id (devices (agent w))).

(** The object fetched under [device_id] now has the state [d]. *)
Definition put_device (device_id : value) (d : Device) : M unit :=
  modify (λ w,
    match device_id with
    | VStr k => with_devices (<[k := d]> (devices (agent w))) w
    | _ => w
    end).

(** ** Command dispatcher *)

(** The dictionaries the control methods return; [device] is the
    [asdict] snapshot taken after the update. *)
Inductive Result : Type :=
| Failure (error : string)
| Success (message : string) (device : Device).

Definition success (r : Result) : bool :=
  match r with
  | Failure _ => false
  | Success _ _ => true
  end.

Definition control_light (device_id action : value)
  (kwargs : gmap string value) : M Result :=
  device ← get_device device_id;
  match device with
  | Some device =>
    if decide (Device.type device = LIGHT) then
      let device :=
        if decide (action = VStr "turn_on") then
          let device := Device.set_status ON device in
          let device :=
            Device.set_property "brightness"
              (default (VInt 100) (kwargs !! "brightness")) device in
          let device :=
            match kwargs !! "color" with
            | Some c => Device.set_property "color" c device
            | None => device
            end in
          match kwargs !! "temperature" with
          | Some c => Device.set_property "temperature" c device
          | None => device
          end
        else if decide (action = VStr "turn_off") then
          let device := Device.set_status OFF device in
          Device.set_property "brightness" (VInt 0) device
        else if decide (action = VStr "set_brightness") then
          if decide (Device.status device = ON) then
            Device.set_property "brightness"
              (default (VInt 50) (kwargs !! "brightness")) device
          else device
        else device in
      t ← now;
      let device := Device.set_last_updated t device in
      put_device device_id device;;
      mret (Success
              (Device.name device +:+ " " +:+ py_str action +:+ " completed")
              device)
    else mret (Failure "Light device not found")
  | None => mret (Failure "Light device not found")
  end.

Definition control_thermostat (device_id action : value)
  (kwargs : gmap string value) : M Result :=
  device ← get_device device_id;
  match device with
  | Some device =>
    if decide (Device.type device = THERMOSTAT) then
      let device :=
        if decide (action = VStr "set_temperature") then
          Device.set_property "target_temp"
            (default (VInt 72) (kwargs !! "temperature")) device
        else if decide (action = VStr "set_mode") then
          Device.set_property "mode"
            (default (VStr "auto") (kwargs !! "mode")) device
        else device in
      t ← now;
      let device := Device.set_last_updated t device in
      put_device device_id device;;
      mret (Success ("Thermostat " +:+ py_str action +:+ " completed") device)
    else mret (Failure "Thermostat device not found")
  | None => mret (Failure "Thermostat device not found")
  end.

Definition control_camera (device_id action : value)
  (kwargs : gmap string value) : M Result :=
  device ← get_device device_id;
  match device with
  | Some device =>
    if decide (Device.type device = SECURITY_CAMERA) then
      let device :=
        if decide (action = VStr "enable_recording") then
          Device.set_property "recording" (VBool true) device
        else if decide (action = VStr "disable_recording") then
          Device.set_property "recording" (VBool false) device
        else if decide (action = VStr "toggle_motion_detection") then
          Device.set_property "motion_detection"
            (VBool (negb (truthy
               (default (VBool true)
                  (Device.properties device !! "motion_detection")))))
            device
        else device in
      t ← now;
      let device := Device.set_last_updated t device in
      put_device device_id device;;
      mret (Success ("Camera " +:+ py_str action +:+ " completed") device)
    else mret (Failure "Camera device not found")
  | None => mret (Failure "Camera device not found")
  end.

Definition control_door_lock (device_id action : value)
  (kwargs : gmap string value) : M Result :=
  device ← get_device device_id;
  match device with
  | Some device =>
    if decide (Device.type device = DOOR_LOCK) then
      let device :=
        if decide (action = VStr "lock") then
          let device := Device.set_status OFF device in
          Device.set_property "locked" (VBool true) device
        else if decide (action = VStr "unlock") then
          let device := Device.set_status ON device in
          Device.set_property "locked" (VBool false) device
        else device in
      t ← now;
      let device := Device.set_last_updated t device in
      put_device device_id device;;
      mret (Success ("Door " +:+ py_str action +:+ " completed") device)
    else mret (Failure "Door lock device not found")
  | None => mret (Failure "Door lock device not found")
  end.

(** ** Suggestion engine *)

Definition morning_suggestion : Suggestion :=
  Suggestion.mk "morning_routine" "routine" "Good Morning Routine"
    "Turn on lights and adjust temperature for the day"
    ["turn_on_living_room_light"; "set_thermostat_73"; "turn_on_kitchen_light"]
    "high".

Definition evening_suggestion : Suggestion :=
  Suggestion.mk "evening_routine" "routine" "Evening Wind Down"
    "Dim lights and prepare for relaxation"
    ["dim_living_room_light"; "set_thermostat_70"]
    "medium".

Definition bedtime_suggestion : Suggestion :=
  Suggestion.mk "bedtime_routine" "routine" "Bedtime Preparation"
    "Activate bedtime routine for better sleep"
    ["turn_off_main_lights"; "dim_bedroom_light"; "lower_temperature"]
    "high".

Definition security_suggestion : Suggestion :=
  Suggestion.mk "security_mode" "security" "Away Mode"
    "Enable security features while away"
    ["enable_camera_recording"; "lock_all_doors"; "turn_off_lights"]
    "high".

Definition energy_suggestion : Suggestion :=
  Suggestion.mk "energy_save" "energy" "Energy Saving"
    "Turn off unused lights to save energy"
    ["optimize_lighting"; "adjust_thermostat"]
    "low".

(** [lo <= t <= hi]. *)
Definition between (lo t hi : time) : bool := time_le lo t && time_le t hi.

(** [any(d.values())] for a dictionary of booleans; the order in which
    the values are visited does not affect the result. *)
Definition any_value (d : gmap string bool) : bool :=
  existsb (λ b : bool, b) (map_to_list d).*2.

(** The list [active_lights]; only its length is used. *)
Definition active_lights (ds : gmap string Device) : list Device :=
  filter (λ d, Device.type d = LIGHT ∧ Device.status d = ON)
    (map_to_list ds).*2.

Definition get_contextual_suggestions : M (list Suggestion) :=
  let suggestions := [] in
  t ← now;
  let current_time := dt_time t in
  let suggestions :=
    if between (time_hm 6 0) current_time (time_hm 9 0) then
      suggestions ++ [morning_suggestion]
    else if between (time_hm 18 0) current_time (time_hm 22 0) then
      suggestions ++ [evening_suggestion]
    else if between (time_hm 22 0) current_time (time_hm 23 0) then
      suggestions ++ [bedtime_suggestion]
    else suggestions in
  occupancy ← gets (λ w, occupancy_status (agent w));
  let suggestions :=
    if negb (any_value occupancy) then suggestions ++ [security_suggestion]
    else suggestions in
  ds ← gets (λ w, devices (agent w));
  let suggestions :=
    if decide (2 < length (active_lights ds)) then
      suggestions ++ [energy_suggestion]
    else suggestions in
  mret suggestions.

(** ** Rule executor *)

(** The dictionary [execute_contextual_rule] returns. *)
Inductive RuleResult : Type :=
| RuleFailure (error : string)
| RuleSuccess (rule : string) (results : list Result)
    (actions_completed : nat).

Definition rule_success (r : RuleResult) : bool :=
  match r with
  | RuleFailure _ => false
  | RuleSuccess _ _ _ => true
  end.

(** The call [self.method(device_id, action_type, **action_kwargs)]: a
    keyword that names a parameter already bound positionally makes Python
    raise [TypeError] before the method body runs. The exception carries
    the part of the message that does not depend on the method. *)
Definition positional_parameters : list string :=
  ["self"; "device_id"; "action"].

Definition call (method : value → value → gmap string value → M Result)
  (device_id action_type : value) (action_kwargs : gmap string value)
  : M Result :=
  match
    List.find (λ p, bool_decide (is_Some (action_kwargs !! p)))
      positional_parameters
  with
  | Some p =>
    raise (TypeError ("got multiple values for argument '" +:+ p +:+ "'"))
  | None => method device_id action_type action_kwargs
  end.

(** The loop [for action in rule.actions], with the list [results] built
    so far. *)
Fixpoint run_actions (actions : list (gmap string value))
  (results : list Result) : M (list Result) :=
  match actions with
  | [] => mret results
  | action :: rest =>
    let device_id := default VNone (action !! "device_id") in
    let action_type := default VNone (action !! "action") in
    let action_kwargs :=
      filter (λ kv, kv.1 ∉ ["device_id"; "action"]) action in
    device ← get_device device_id;
    match device with
    | None => run_actions rest results
    | Some device =>
      match Device.type device with
      | LIGHT =>
        result ← call control_light device_id action_type action_kwargs;
        run_actions rest (results ++ [result])
      | THERMOSTAT =>
        result ← call control_thermostat device_id action_type action_kwargs;
        run_actions rest (results ++ [result])
      | SECURITY_CAMERA =>
        result ← call control_camera device_id action_type action_kwargs;
        run_actions rest (results ++ [result])
      | DOOR_LOCK =>
        result ← call control_door_lock device_id action_type action_kwargs;
        run_actions rest (results ++ [result])
      | MOTION_SENSOR => run_actions rest results
      end
    end
  end.

Definition execute_contextual_rule (rule_id : string) : M RuleResult :=
  rule ← gets (λ w, contextual_rules (agent w) !! rule_id);
  match rule with
  | Some rule =>
    if ContextualRule.enabled rule then
      results ← run_actions (ContextualRule.actions rule) [];
      mret (RuleSuccess (ContextualRule.name rule) results (length results))
    else mret (RuleFailure "Rule not found or disabled")
  | None => mret (RuleFailure "Rule not found or disabled")
  end.

(** ** Occupancy tracker *)

(** The confirmation record; [timestamp] holds the clock reading itself
    rather than its ISO text. *)
Record Confirmation : Type := mk_confirmation {
  conf_success : bool;
  conf_location : string;
  conf_occupied : bool;
  conf_timestamp : datetime
}.

Definition set_occupancy_status (location : string) (occupied : bool)
  : M Confirmation :=
  modify (λ w,
    mk_world
      (mk_agent (devices (agent w)) (contextual_rules (agent w))
         (user_preferences (agent w))
         (<[location := occupied]> (occupancy_status (agent w))))
      (clock w) (ticks w));;
  t ← now;
  mret (mk_confirmation true location occupied t).

(** ** Listing devices *)

(** [device.type.value]. *)
Definition DeviceType_value (t : DeviceType) : string :=
  match t with
  | LIGHT => "light"
  | THERMOSTAT => "thermostat"
  | SECURITY_CAMERA => "security_camera"
  | DOOR_LOCK => "door_lock"
  | MOTION_SENSOR => "motion_sensor"
  end.

(** Truth value of an optional string argument: [None] and the empty
    string are false. *)
Definition given (o : option string) : bool :=
  match o with
  | Some s => negb (String.eqb s "")
  | None => false
  end.

(** The loop [for device in self.devices.values()] with its two
    [continue] tests, and the list [filtered_devices] built so far. *)
Fixpoint list_devices_loop (ds : list Device)
  (device_type location : option string) (filtered_devices : list Device)
  : list Device :=
  match ds with
  | [] => filtered_devices
  | device :: rest =>
    if given device_type
       && negb (bool_decide
                  (Some (DeviceType_value (Device.type device)) = device_type))
    then list_devices_loop rest device_type location filtered_devices
    else if given location
            && negb (bool_decide (Some (Device.location device) = location))
    then list_devices_loop rest device_type location filtered_devices
    else list_devices_loop rest device_type location
           (filtered_devices ++ [device])
  end.

(** The registry is a [gmap], which does not record the insertion order
    of a Python dictionary: the devices are visited in the order of the
    map, and only facts that do not depend on the order are stated about
    the result. *)
Definition list_devices (device_type location : option string)
  : M (list Device) :=
  gets (λ w,
    list_devices_loop (map_to_list (devices (agent w))).*2
      device_type location []).

(** ** Initial state *)

(** [Device(..., last_updated=datetime.now())]. *)
Definition new_device (id name : string) (type : DeviceType)
  (status : DeviceStatus) (location : string)
  (properties : list (string * value)) : M Device :=
  t ← now;
  mret (Device.mk id name type status location (list_to_map properties) t).

Definition setup_default_devices : M unit :=
  d1 ← new_device "living_room_light" "Living Room Light" LIGHT OFF
         "living_room"
         [("brightness", VInt 0); ("color", VStr "white");
          ("temperature", VInt 3000)];
  d2 ← new_device "bedroom_light" "Bedroom Light" LIGHT OFF "bedroom"
         [("brightness", VInt 0); ("color", VStr "white");
          ("temperature", VInt 3000)];
  d3 ← new_device "kitchen_light" "Kitchen Light" LIGHT OFF "kitchen"
         [("brightness", VInt 0); ("color", VStr "white");
          ("temperature", VInt 4000)];
  d4 ← new_device "main_thermostat" "Main Thermostat" THERMOSTAT ACTIVE
         "hallway"
         [("temperature", VInt 72); ("target_temp", VInt 72);
          ("mode", VStr "auto"); ("humidity", VInt 45)];
  d5 ← new_device "front_door_camera" "Front Door Camera" SECURITY_CAMERA
         ACTIVE "front_door"
         [("recording", VBool true); ("motion_detection", VBool true);
          ("night_vision", VBool true)];
  d6 ← new_device "back_door_camera" "Back Door Camera" SECURITY_CAMERA
         ACTIVE "back_door"
         [("recording", VBool false); ("motion_detection", VBool true);
          ("night_vision", VBool true)];
  d7 ← new_device "front_door_lock" "Front Door Lock" DOOR_LOCK OFF
         "front_door"
         [("locked", VBool true); ("auto_lock", VBool true);
          ("access_code", VStr "1234")];
  d8 ← new_device "living_room_motion" "Living Room Motion Sensor"
         MOTION_SENSOR INACTIVE "living_room"
         [("sensitivity", VStr "medium"); ("last_motion", VNone)];
  let default_devices := [d1; d2; d3; d4; d5; d6; d7; d8] in
  modify (λ w,
    with_devices
      (foldl (λ ds device, <[Device.id device := device]> ds)
         (devices (agent w)) default_devices) w).

Definition rule_action (device_id action : string)
  (params : list (string * value)) : gmap string value :=
  list_to_map (("device_id", VStr device_id) :: ("action", VStr action)
               :: params).

Definition welcome_home : ContextualRule :=
  ContextualRule.mk "welcome_home" "Welcome Home Automation"
    (list_to_map [("door_unlock", CondFlag true);
                  ("time_range", CondRange "06:00" "22:00")])
    [ rule_action "living_room_light" "turn_on" [("brightness", VInt 80)];
      rule_action "main_thermostat" "set_temperature"
        [("temperature", VInt 72)] ]
    true 1.

Definition bedtime_routine : ContextualRule :=
  ContextualRule.mk "bedtime_routine" "Bedtime Automation"
    (list_to_map [("time", CondTime "22:00"); ("occupancy", CondFlag true)])
    [ rule_action "living_room_light" "turn_off" [];
      rule_action "kitchen_light" "turn_off" [];
      rule_action "bedroom_light" "turn_on" [("brightness", VInt 30)];
      rule_action "main_thermostat" "set_temperature"
        [("temperature", VInt 68)] ]
    true 2.

Definition security_mode : ContextualRule :=
  ContextualRule.mk "security_mode" "Away Security Mode"
    (list_to_map [("occupancy", CondFlag false);
                  ("duration_away", CondMinutes 30)])
    [ rule_action "living_room_light" "turn_off" [];
      rule_action "bedroom_light" "turn_off" [];
      rule_action "kitchen_light" "turn_off" [];
      rule_action "front_door_camera" "enable_recording" [];
      rule_action "back_door_camera" "enable_recording" [];
      rule_action "main_thermostat" "set_temperature"
        [("temperature", VInt 65)] ]
    true 3.

Definition morning_routine : ContextualRule :=
  ContextualRule.mk "morning_routine" "Good Morning Automation"
    (list_to_map [("time", CondTime "07:00"); ("occupancy", CondFlag true)])
    [ rule_action "living_room_light" "turn_on"
        [("brightness", VInt 90); ("temperature", VInt 4000)];
      rule_action "kitchen_light" "turn_on" [("brightness", VInt 100)];
      rule_action "main_thermostat" "set_temperature"
        [("temperature", VInt 73)] ]
    true 1.

Definition default_rules : list ContextualRule :=
  [welcome_home; bedtime_routine; security_mode; morning_routine].

Definition setup_default_rules : M unit :=
  modify (λ w,
    mk_world
      (mk_agent (devices (agent w))
         (foldl (λ rs rule, <[ContextualRule.id rule := rule]> rs)
            (contextual_rules (agent w)) default_rules)
         (user_preferences (agent w)) (occupancy_status (agent w)))
      (clock w) (ticks w)).

(** [SmartHomeAgent()] under a given clock. *)
Definition init (clk : nat → datetime) : World :=
  snd ((setup_default_devices;; setup_default_rules)
         (mk_world (mk_agent ∅ ∅ ∅ ∅) clk 0)).

(** A clock that stands still at [h:m] on day [0], for examples. *)
Definition clock_at (h m : Z) : nat → datetime :=
  λ _, mk_datetime 0 (time_hm h m).

(** ** Vocabulary of the statements *)

(** The four control methods, for statements that range over them, each
    with the device type it accepts and the action names its [if]/[elif]
    chain recognises. *)
Inductive operation : Type :=
| ControlLight | ControlThermostat | ControlCamera | ControlDoorLock.

Definition control (op : operation)
  : value → value → gmap string value → M Result :=
  match op with
  | ControlLight => control_light
  | ControlThermostat => control_thermostat
  | ControlCamera => control_camera
  | ControlDoorLock => control_door_lock
  end.

Definition operation_type (op : operation) : DeviceType :=
  match op with
  | ControlLight => LIGHT
  | ControlThermostat => THERMOSTAT
  | ControlCamera => SECURITY_CAMERA
  | ControlDoorLock => DOOR_LOCK
  end.

Definition action_table (op : operation) : list string :=
  match op with
  | ControlLight => ["turn_on"; "turn_off"; "set_brightness"]
  | ControlThermostat => ["set_temperature"; "set_mode"]
  | ControlCamera =>
    ["enable_recording"; "disable_recording"; "toggle_motion_detection"]
  | ControlDoorLock => ["lock"; "unlock"]
  end.

(** The world after one more reading of the clock. *)
Definition tick (w : World) : World :=
  mk_world (agent w) (clock w) (S (ticks w)).

(** The world after the device under key [k] got the state [d] at a
    reading of the clock. *)
Definition updated (k : string) (d : Device) (w : World) : World :=
  with_devices (<[k := d]> (devices (agent w))) (tick w).

(** Two snapshots of the same device: the control methods never assign
    [id], [name], [type] or [location]. *)
Definition same_identity (d d' : Device) : Prop :=
  Device.id d' = Device.id d ∧ Device.name d' = Device.name d
  ∧ Device.type d' = Device.type d ∧ Device.location d' = Device.location d.

(** Two registries holding the same devices under the same keys. *)
Definition similar (ds ds' : gmap string Device) : Prop :=
  ∀ k, option_Forall2 same_identity (ds !! k) (ds' !! k).

(** [action.get("device_id")] and [action.get("action")]. *)
Definition target (action : gmap string value) : value :=
  default VNone (action !! "device_id").

Definition verb (action : gmap string value) : value :=
  default VNone (action !! "action").

(** The target of the action is a key of the registry. *)
Definition resolves (ds : gmap string Device) (action : gmap string value)
  : bool :=
  bool_decide (is_Some (lookup_device (target action) ds)).

(** The target of the action is a registered light, thermostat, camera or
    door lock. *)
Definition dispatched (ds : gmap string Device) (action : gmap string value)
  : bool :=
  match lookup_device (target action) ds with
  | Some d =>
    bool_decide
      (Device.type d ∈ [LIGHT; THERMOSTAT; SECURITY_CAMERA; DOOR_LOCK])
  | None => false
  end.

(** [r] is the record a control method returned for [action]: a success
    carrying a snapshot of the device the action targets. *)
Definition answers (ds : gmap string Device) (action : gmap string value)
  (r : Result) : Prop :=
  ∃ d message d',
    lookup_device (target action) ds = Some d
    ∧ r = Success message d' ∧ same_identity d d'.

(** Times of day that [datetime.time] can hold, and their offset from
    midnight in microseconds. *)
Definition valid_time (t : time) : Prop :=
  (0 ≤ hour t < 24 ∧ 0 ≤ minute t < 60 ∧ 0 ≤ second t < 60
   ∧ 0 ≤ microsecond t < 1000000)%Z.

Definition microseconds (t : time) : Z :=
  (((hour t * 60 + minute t) * 60 + second t) * 1000000 + microsecond t)%Z.

(** The three suggestions of the time-of-day group. *)
Definition time_based (s : Suggestion) : Prop :=
  s ∈ [morning_suggestion; evening_suggestion; bedtime_suggestion].

#[global] Instance time_based_dec (s : Suggestion) : Decision (time_based s).
Proof. unfold time_based. apply _. Defined.

(** A device passes the filters of [list_devices]: an absent or empty
    filter lets every device through. *)
Definition listed (device_type location : option string) (d : Device)
  : Prop :=
  (given device_type = true
   → device_type = Some (DeviceType_value (Device.type d)))
  ∧ (given location = true → location = Some (Device.location d)).

(** Two invariants of the registry. A light that is off has brightness
    [0]; the status of a door lock and its [locked] property agree
    ([OFF] is locked). *)
Definition light_off_dark (d : Device) : Prop :=
  Device.type d = LIGHT → Device.status d = OFF →
  Device.properties d !! "brightness" = Some (VInt 0).

Definition lock_consistent (d : Device) : Prop :=
  Device.type d = DOOR_LOCK →
  (Device.status d = OFF
   ∧ Device.properties d !! "locked" = Some (VBool true))
  ∨ (Device.status d = ON
     ∧ Device.properties d !! "locked" = Some (VBool false)).

Definition registry_ok (ds : gmap string Device) : Prop :=
  map_Forall (λ _ d, light_off_dark d ∧ lock_consistent d) ds.

#[global] Instance light_off_dark_dec (d : Device) :
  Decision (light_off_dark d).
Proof. unfold light_off_dark. apply _. Defined.

#[global] Instance lock_consistent_dec (d : Device) :
  Decision (lock_consistent d).
Proof. unfold lock_consistent. apply _. Defined.

(** The devices that count as active lights. *)
Definition lit (d : Device) : Prop :=
  Device.type d = LIGHT ∧ Device.status d = ON.

(** One microsecond-precise instant of the day. *)
Definition at_microsecond (h m s us : Z) : time := mk_time h m s us.

(** The property keys each control method can assign. *)
Definition written_keys (op : operation) : list string :=
  match op with
  | ControlLight => ["brightness"; "color"; "temperature"]
  | ControlThermostat => ["target_temp"; "mode"]
  | ControlCamera => ["recording"; "motion_detection"]
  | ControlDoorLock => ["locked"]
  end.

(** ** Sample worlds *)

(** A freshly constructed agent at 07:30. *)
Definition fresh_0730 : World := init (clock_at 7 30).

(** A freshly constructed agent at exactly 22:00. *)
Definition fresh_2200 : World := init (clock_at 22 0).

(** The front door camera as that agent holds it. *)
Definition front_door_camera : Device :=
  Device.mk "front_door_camera" "Front Door Camera" SECURITY_CAMERA ACTIVE
    "front_door"
    (list_to_map [("recording", VBool true); ("motion_detection", VBool true);
                  ("night_vision", VBool true)])
    (mk_datetime 0 (time_hm 7 30)).

(** The same agent after the living room light was switched on. *)
Definition lit_0730 : World :=
  snd (control_light (VStr "living_room_light") (VStr "turn_on") ∅
         fresh_0730).

(** The same agent after its three lights were switched on. *)
Definition all_lit_0730 : World :=
  snd ((control_light (VStr "living_room_light") (VStr "turn_on") ∅;;
        control_light (VStr "bedroom_light") (VStr "turn_on") ∅;;
        control_light (VStr "kitchen_light") (VStr "turn_on") ∅)
         fresh_0730).

Definition with_rules (rules : list ContextualRule) (w : World) : World :=
  mk_world
    (mk_agent (devices (agent w))
       (foldl (λ rs rule, <[ContextualRule.id rule := rule]> rs)
          (contextual_rules (agent w)) rules)
       (user_preferences (agent w)) (occupancy_status (agent w)))
    (clock w) (ticks w).

(** A rule aimed at the motion sensor, one aimed at devices that are not
    registered, one passing a keyword named [self], and a disabled one. *)
Definition sensor_rule : ContextualRule :=
  ContextualRule.mk "watch_motion" "Watch Motion" ∅
    [rule_action "living_room_motion" "arm" []] true 1.

Definition garage_rule : ContextualRule :=
  ContextualRule.mk "garage" "Garage Check" ∅
    [rule_action "garage_light" "turn_on" [];
     rule_action "living_room_motion" "arm" []] true 2.

Definition keyword_rule : ContextualRule :=
  ContextualRule.mk "keyword" "Keyword Clash" ∅
    [rule_action "living_room_light" "turn_on" [("self", VInt 1)]] true 3.

Definition holiday_rule : ContextualRule :=
  ContextualRule.mk "holiday" "Holiday Lights" ∅
    [rule_action "living_room_light" "turn_on" [("brightness", VInt 10)]]
    false 4.

Definition extended_0730 : World :=
  with_rules [sensor_rule; garage_rule; keyword_rule; holiday_rule]
    fresh_0730.

(** The kitchen light, the thermostat and the door lock as the fresh
    agent holds them. *)
Definition kitchen_light : Device :=
  Device.mk "kitchen_light" "Kitchen Light" LIGHT OFF "kitchen"
    (list_to_map [("brightness", VInt 0); ("color", VStr "white");
                  ("temperature", VInt 4000)])
    (mk_datetime 0 (time_hm 7 30)).

Definition main_thermostat : Device :=
  Device.mk "main_thermostat" "Main Thermostat" THERMOSTAT ACTIVE "hallway"
    (list_to_map [("temperature", VInt 72); ("target_temp", VInt 72);
                  ("mode", VStr "auto"); ("humidity", VInt 45)])
    (mk_datetime 0 (time_hm 7 30)).

Definition front_door_lock : Device :=
  Device.mk "front_door_lock" "Front Door Lock" DOOR_LOCK OFF "front_door"
    (list_to_map [("locked", VBool true); ("auto_lock", VBool true);
                  ("access_code", VStr "1234")])
    (mk_datetime 0 (time_hm 7 30)).

(** A camera registered without any property, and a rule whose second
    action passes a keyword named [self]. *)
Definition porch_camera : Device :=
  Device.mk "porch_camera" "Porch Camera" SECURITY_CAMERA ACTIVE "porch" ∅
    (mk_datetime 0 (time_hm 7 30)).

Definition porch_0730 : World :=
  with_devices
    (<["porch_camera" := porch_camera]> (devices (agent fresh_0730)))
    fresh_0730.

Definition partial_rule : ContextualRule :=
  ContextualRule.mk "partial" "Partial Run" ∅
    [rule_action "living_room_light" "turn_on" [];
     rule_action "kitchen_light" "turn_on" [("self", VInt 1)];
     rule_action "bedroom_light" "turn_on" []] true 5.

Definition partial_0730 : World := with_rules [partial_rule] fresh_0730.

(** * Verification *)

(** ** Running the monad *)

Lemma bind_Ret {A B : Type} (m : M A) (f : A → M B) (w w' : World) (a : A) :
  m w = (Ret a, w') → (m ≫= f) w = f a w'.
Proof. intros H. unfold mbind, M_bind. rewrite H. reflexivity. Qed.

Lemma bind_Raise {A B : Type} (m : M A) (f : A → M B) (w w' : World) e :
  m w = (Raise e, w') → (m ≫= f) w = (Raise e, w').
Proof. intros H. unfold mbind, M_bind. rewrite H. reflexivity. Qed.

Ltac run :=
  unfold get_device, put_device, gets, modify, now, raise;
  unfold mbind, M_bind, mret, M_ret; simpl.

Ltac unfold_control :=
  unfold control, control_light, control_thermostat, control_camera,
    control_door_lock.

(** ** Command dispatcher *)

(** A control method applied to a registered device of its own type
    returns a success record with a snapshot of the device, which keeps
    its identity and is stamped with the clock reading; the registry
    holds that state afterwards. *)
Lemma control_accepts (op : operation) (k : string) (action : value)
  (kwargs : gmap string value) (w : World) (d : Device) :
  devices (agent w) !! k = Some d →
  Device.type d = operation_type op →
  ∃ message d',
    control op (VStr k) action kwargs w
    = (Ret (Success message d'), updated k d' w)
    ∧ same_identity d d'
    ∧ Device.last_updated d' = clock w (ticks w).
Proof.
  intros Hd Ht. unfold same_identity.
  destruct op; simpl in Ht; unfold_control; run;
    rewrite Hd; (rewrite decide_True by done);
    eexists; eexists; (split; [reflexivity|]);
    repeat case_decide; repeat case_match; simpl; done.
Qed.

Lemma updated_lookup (k : string) (d : Device) (w : World) :
  devices (agent (updated k d w)) !! k = Some d.
Proof. unfold updated. simpl. apply lookup_insert_eq. Qed.

Lemma updated_lookup_ne (k k' : string) (d : Device) (w : World) :
  k ≠ k' → devices (agent (updated k d w)) !! k' = devices (agent w) !! k'.
Proof. intros H. unfold updated. simpl. by apply lookup_insert_ne. Qed.

(** C5. Each of the four control operations, asked to act on a device id
    that is absent from the registry or that names a device of another
    type, returns normally (no exception) a failure record
    ([success = false]) with a non-empty error message, and leaves the
    whole world, hence every device of the registry, as it was. *)
Theorem control_rejects (op : operation) (device_id action : value)
  (kwargs : gmap string value) (w : World) :
  lookup_device device_id (devices (agent w)) = None
  ∨ (∃ d, lookup_device device_id (devices (agent w)) = Some d
          ∧ Device.type d ≠ operation_type op) →
  ∃ r, control op device_id action kwargs w = (Ret r, w)
       ∧ success r = false
       ∧ ∃ error, r = Failure error ∧ error ≠ "".
Proof.
  intros [Hnone | (d & Hd & Ht)];
    destruct op; simpl in *; unfold_control; run;
    rewrite ?Hnone, ?Hd; rewrite ?decide_False by done;
    (eexists; split; [reflexivity|]; split; [reflexivity|]);
    eexists; (split; [reflexivity|]); discriminate.
Qed.

Lemma control_rejects_witness :
  ∃ r, control ControlLight (VStr "main_thermostat") (VStr "turn_on") ∅
         fresh_0730 = (Ret r, fresh_0730)
       ∧ success r = false
       ∧ ∃ error, r = Failure error ∧ error ≠ "".
Proof.
  apply (control_rejects ControlLight (VStr "main_thermostat")
           (VStr "turn_on") ∅ fresh_0730).
  right. eexists. split; [reflexivity | discriminate].
Defined.

Section matching_device.
Context (k : string) (w : World) (d : Device).
Hypothesis Hd : devices (agent w) !! k = Some d.

(** C4. A control operation applied to a device of its own type with an
    action outside its action table returns [success = true]; the device
    keeps its status and all its properties and gets the clock reading
    as [last_updated]. *)
Theorem unrecognized_action_refreshes (op : operation) (action : value)
  (kwargs : gmap string value) :
  Device.type d = operation_type op →
  action ∉ (VStr <$> action_table op) →
  ∃ r w' d',
    control op (VStr k) action kwargs w = (Ret r, w')
    ∧ success r = true
    ∧ devices (agent w') !! k = Some d'
    ∧ Device.properties d' = Device.properties d
    ∧ Device.status d' = Device.status d
    ∧ Device.last_updated d' = clock w (ticks w).
Proof.
  intros Ht Hout.
  destruct op; simpl in Ht, Hout; unfold_control; run;
    rewrite Hd; (rewrite decide_True by done);
    repeat (rewrite decide_False by (intros ->; set_solver));
    (do 3 eexists; split; [reflexivity|]); simpl;
    rewrite lookup_insert_eq; done.
Qed.

(** C7. [control_light(id, "turn_off")] on a registered light, whatever
    its status and brightness were, returns [success = true] and leaves
    the light with status [OFF] and brightness [0]. *)
Theorem turn_off_light (kwargs : gmap string value) :
  Device.type d = LIGHT →
  ∃ r w' d',
    control_light (VStr k) (VStr "turn_off") kwargs w = (Ret r, w')
    ∧ success r = true
    ∧ devices (agent w') !! k = Some d'
    ∧ Device.status d' = OFF
    ∧ Device.properties d' !! "brightness" = Some (VInt 0).
Proof.
  intros Ht. unfold control_light. run. rewrite Hd.
  rewrite decide_True by done. simpl.
  do 3 eexists. split; [reflexivity|]. simpl.
  rewrite lookup_insert_eq. repeat split; try done.
  simpl. apply lookup_insert_eq.
Qed.

(** C10. [control_light(id, "set_brightness")] without a [brightness]
    argument, on a registered light whose status is [ON], returns
    [success = true] and sets the brightness to 50. *)
Theorem set_brightness_default (kwargs : gmap string value) :
  Device.type d = LIGHT →
  Device.status d = ON →
  kwargs !! "brightness" = None →
  ∃ r w' d',
    control_light (VStr k) (VStr "set_brightness") kwargs w = (Ret r, w')
    ∧ success r = true
    ∧ devices (agent w') !! k = Some d'
    ∧ Device.properties d' !! "brightness" = Some (VInt 50).
Proof.
  intros Ht Hs Hk. unfold control_light. run. rewrite Hd.
  rewrite decide_True by done. simpl.
  rewrite decide_True by done. rewrite Hk. simpl.
  do 3 eexists. split; [reflexivity|]. simpl.
  rewrite lookup_insert_eq. repeat split; try done.
  simpl. apply lookup_insert_eq.
Qed.

(** C8. [control_door_lock(id, "unlock")] followed by
    [control_door_lock(id, "lock")] on a registered door lock, whatever
    its state was, leaves it with status [OFF] and [locked = True]. *)
Theorem unlock_then_lock (kwargs1 kwargs2 : gmap string value) :
  Device.type d = DOOR_LOCK →
  ∃ r w' d',
    (control_door_lock (VStr k) (VStr "unlock") kwargs1;;
     control_door_lock (VStr k) (VStr "lock") kwargs2) w = (Ret r, w')
    ∧ success r = true
    ∧ devices (agent w') !! k = Some d'
    ∧ Device.status d' = OFF
    ∧ Device.properties d' !! "locked" = Some (VBool true).
Proof.
  intros Ht. unfold control_door_lock. run. rewrite Hd.
  rewrite decide_True by done. simpl.
  rewrite lookup_insert_eq. simpl. rewrite decide_True by done.
  do 3 eexists. split; [reflexivity|]. simpl.
  rewrite !lookup_insert_eq. repeat split; try done.
  simpl. apply lookup_insert_eq.
Qed.

End matching_device.

Lemma unrecognized_action_refreshes_witness :
  (VStr "zoom" ∉ (VStr <$> action_table ControlCamera))
  ∧ ∃ r w' d',
      control ControlCamera (VStr "front_door_camera") (VStr "zoom") ∅
        fresh_0730 = (Ret r, w')
      ∧ success r = true
      ∧ devices (agent w') !! "front_door_camera" = Some d'
      ∧ Device.properties d'
        = list_to_map [("recording", VBool true);
                       ("motion_detection", VBool true);
                       ("night_vision", VBool true)]
      ∧ Device.status d' = ACTIVE
      ∧ Device.last_updated d' = clock fresh_0730 (ticks fresh_0730).
Proof.
  assert (H : VStr "zoom" ∉ (VStr <$> action_table ControlCamera)).
  { simpl. rewrite !not_elem_of_cons. repeat split; try discriminate.
    apply not_elem_of_nil. }
  split; [exact H|].
  apply (unrecognized_action_refreshes "front_door_camera" fresh_0730
           front_door_camera);
    [reflexivity | reflexivity | exact H].
Defined.

Lemma turn_off_light_witness :
  Device.status <$> (devices (agent lit_0730) !! "living_room_light")
  = Some ON
  ∧ ∃ r w' d',
      control_light (VStr "living_room_light") (VStr "turn_off") ∅ lit_0730
      = (Ret r, w')
      ∧ success r = true
      ∧ devices (agent w') !! "living_room_light" = Some d'
      ∧ Device.status d' = OFF
      ∧ Device.properties d' !! "brightness" = Some (VInt 0).
Proof.
  split; [reflexivity|].
  eapply (turn_off_light "living_room_light" lit_0730);
    [reflexivity | reflexivity].
Defined.

Lemma set_brightness_default_witness :
  Device.properties <$> (devices (agent lit_0730) !! "living_room_light")
  = Some (list_to_map [("brightness", VInt 100); ("color", VStr "white");
                       ("temperature", VInt 3000)])
  ∧ ∃ r w' d',
      control_light (VStr "living_room_light") (VStr "set_brightness") ∅
        lit_0730 = (Ret r, w')
      ∧ success r = true
      ∧ devices (agent w') !! "living_room_light" = Some d'
      ∧ Device.properties d' !! "brightness" = Some (VInt 50).
Proof.
  split; [reflexivity|].
  eapply (set_brightness_default "living_room_light" lit_0730);
    [reflexivity | reflexivity | reflexivity | reflexivity].
Defined.

Lemma unlock_then_lock_witness :
  ∃ r w' d',
    (control_door_lock (VStr "front_door_lock") (VStr "unlock") ∅;;
     control_door_lock (VStr "front_door_lock") (VStr "lock") ∅) fresh_0730
    = (Ret r, w')
    ∧ success r = true
    ∧ devices (agent w') !! "front_door_lock" = Some d'
    ∧ Device.status d' = OFF
    ∧ Device.properties d' !! "locked" = Some (VBool true).
Proof.
  eapply (unlock_then_lock "front_door_lock" fresh_0730);
    [reflexivity | reflexivity].
Defined.

(** ** Rule executor *)

(** C3. [execute_contextual_rule] on a rule id that is absent from the
    rule store, or that names a rule with [enabled = False], returns a
    failure record and leaves the whole world, hence every device (status,
    properties and [last_updated]), as it was. *)
Theorem execute_rule_rejects (rule_id : string) (w : World) :
  contextual_rules (agent w) !! rule_id = None
  ∨ (∃ rule, contextual_rules (agent w) !! rule_id = Some rule
             ∧ ContextualRule.enabled rule = false) →
  ∃ r, execute_contextual_rule rule_id w = (Ret r, w)
       ∧ rule_success r = false.
Proof.
  intros [Hnone | (rule & Hrule & Hoff)];
    unfold execute_contextual_rule; run; rewrite ?Hnone, ?Hrule, ?Hoff;
    eexists; split; reflexivity.
Qed.

Lemma execute_rule_rejects_witness :
  ContextualRule.enabled <$> (contextual_rules (agent extended_0730)
                                !! "holiday") = Some false
  ∧ ∃ r, execute_contextual_rule "holiday" extended_0730
         = (Ret r, extended_0730)
         ∧ rule_success r = false.
Proof.
  split; [reflexivity|].
  apply (execute_rule_rejects "holiday" extended_0730).
  right. exists holiday_rule. split; reflexivity.
Defined.

(** An action that is not dispatched leaves the loop state as it is. *)
Lemma run_actions_skip (ds : gmap string Device)
  (actions : list (gmap string value)) :
  Forall (λ a, dispatched ds a = false) actions →
  ∀ results w, devices (agent w) = ds →
    run_actions actions results w = (Ret results, w).
Proof.
  induction 1 as [|a actions Ha _ IH]; intros results w Hw; [reflexivity|].
  simpl. run. unfold dispatched, target in Ha. rewrite Hw.
  destruct (lookup_device _ ds) as [d|]; [|by apply IH].
  destruct (Device.type d) eqn:Ht; try by apply IH.
  all: apply bool_decide_eq_false in Ha; exfalso; apply Ha;
    rewrite !elem_of_cons; auto 10.
Qed.

(** C9. An enabled rule none of whose actions targets a registered light,
    thermostat, camera or door lock (the id is absent, or it names a
    motion sensor) still executes successfully: the result list is empty,
    [actions_completed] is 0, and the world, hence every device, is as it
    was. *)
Theorem execute_rule_nothing_dispatched (rule_id : string) (w : World)
  (rule : ContextualRule) :
  contextual_rules (agent w) !! rule_id = Some rule →
  ContextualRule.enabled rule = true →
  Forall (λ a,
      lookup_device (target a) (devices (agent w)) = None
      ∨ ∃ d, lookup_device (target a) (devices (agent w)) = Some d
             ∧ Device.type d = MOTION_SENSOR)
    (ContextualRule.actions rule) →
  execute_contextual_rule rule_id w
  = (Ret (RuleSuccess (ContextualRule.name rule) [] 0), w)
  ∧ rule_success (RuleSuccess (ContextualRule.name rule) [] 0) = true.
Proof.
  intros Hrule Hon Hall. split; [|reflexivity].
  unfold execute_contextual_rule. run. rewrite Hrule, Hon.
  rewrite (run_actions_skip (devices (agent w))); [reflexivity| |reflexivity].
  eapply Forall_impl; [exact Hall|].
  intros a [Hnone | (d & Hd & Ht)]; unfold dispatched.
  - by rewrite Hnone.
  - rewrite Hd, Ht. apply bool_decide_eq_false.
    rewrite !elem_of_cons, elem_of_nil. intuition discriminate.
Qed.

Lemma execute_rule_nothing_dispatched_witness :
  execute_contextual_rule "garage" extended_0730
  = (Ret (RuleSuccess "Garage Check" [] 0), extended_0730)
  ∧ rule_success (RuleSuccess "Garage Check" [] 0) = true.
Proof.
  apply (execute_rule_nothing_dispatched "garage" extended_0730 garage_rule);
    [reflexivity | reflexivity |].
  constructor; [left; reflexivity|].
  constructor; [right; eexists; split; reflexivity|].
  constructor.
Defined.

(** The keyword arguments of a dispatched action never clash with
    [device_id] and [action], which the comprehension removes; they clash
    with [self] exactly when the action has such a key. *)
Lemma action_kwargs_lookup (a : gmap string value) (p : string) :
  filter (λ kv : string * value, kv.1 ∉ ["device_id"; "action"]) a !! p
  = if decide (p ∈ ["device_id"; "action"]) then None else a !! p.
Proof.
  case_decide as Hp.
  - apply map_lookup_filter_None. right. intros x _ Hx. by apply Hx.
  - destruct (a !! p) as [x|] eqn:Hx.
    + by apply map_lookup_filter_Some.
    + apply map_lookup_filter_None. by left.
Qed.

Lemma call_binds (method : value → value → gmap string value → M Result)
  (a : gmap string value) :
  a !! "self" = None →
  call method (target a) (verb a)
    (filter (λ kv : string * value, kv.1 ∉ ["device_id"; "action"]) a)
  = method (target a) (verb a)
      (filter (λ kv : string * value, kv.1 ∉ ["device_id"; "action"]) a).
Proof.
  intros Hself. unfold call, positional_parameters. simpl.
  rewrite !action_kwargs_lookup. rewrite Hself.
  rewrite decide_False by (rewrite !elem_of_cons, elem_of_nil;
                           intuition discriminate).
  rewrite !decide_True by (rewrite !elem_of_cons; auto).
  reflexivity.
Qed.

Lemma call_clash (method : value → value → gmap string value → M Result)
  (a : gmap string value) (w : World) :
  is_Some (a !! "self") →
  call method (target a) (verb a)
    (filter (λ kv : string * value, kv.1 ∉ ["device_id"; "action"]) a) w
  = (Raise (TypeError "got multiple values for argument 'self'"), w).
Proof.
  intros Hself. unfold call, positional_parameters. simpl.
  rewrite !action_kwargs_lookup.
  rewrite decide_False by (rewrite !elem_of_cons, elem_of_nil;
                           intuition discriminate).
  rewrite bool_decide_eq_true_2 by done. reflexivity.
Qed.

Lemma similar_refl (ds : gmap string Device) : similar ds ds.
Proof.
  intros k. destruct (ds !! k); constructor. by repeat split.
Qed.

Lemma similar_insert (ds ds' : gmap string Device) (k : string)
  (d d' : Device) :
  similar ds ds' → ds !! k = Some d → same_identity d d' →
  similar ds (<[k := d']> ds').
Proof.
  intros Hs Hk Hid k'. destruct (decide (k = k')) as [<-|Hne].
  - rewrite lookup_insert_eq, Hk. by constructor.
  - rewrite lookup_insert_ne by done. apply Hs.
Qed.

Lemma same_identity_trans (d1 d2 d3 : Device) :
  same_identity d1 d2 → same_identity d2 d3 → same_identity d1 d3.
Proof.
  unfold same_identity. intros (?&?&?&?) (?&?&?&?).
  repeat split; congruence.
Qed.

(** The loop over the actions of a rule: every dispatched action appends
    the record of its control call, the others append nothing, and the
    registry keeps the same devices under the same keys. *)
Lemma run_actions_results (ds : gmap string Device)
  (actions : list (gmap string value)) :
  Forall (λ a, a !! "self" = None) actions →
  ∀ results w, similar ds (devices (agent w)) →
    ∃ new w',
      run_actions actions results w = (Ret (results ++ new), w')
      ∧ Forall2 (answers ds) (filter (λ a, dispatched ds a) actions) new
      ∧ similar ds (devices (agent w')).
Proof.
  induction 1 as [|a actions Ha _ IH]; intros results w Hsim.
  { exists [], w. rewrite app_nil_r. repeat split; [constructor | done]. }
  assert (Hskip : dispatched ds a = false →
    ∃ new w',
      run_actions actions results w = (Ret (results ++ new), w')
      ∧ Forall2 (answers ds) (filter (λ a, dispatched ds a) (a :: actions))
          new
      ∧ similar ds (devices (agent w'))).
  { intros Hno. rewrite filter_cons_False by (rewrite Hno; auto).
    by apply IH. }
  simpl run_actions. fold (target a) (verb a).
  erewrite bind_Ret by (unfold get_device, gets; reflexivity).
  unfold dispatched in Hskip.
  destruct (target a) as [| | |k] eqn:Hk; simpl; try by apply Hskip.
  pose proof (Hsim k) as Hrel.
  destruct (devices (agent w) !! k) as [d|] eqn:Hd;
    destruct (ds !! k) as [d0|] eqn:Hd0; inversion Hrel as [? ? Hid|]; subst;
    [|apply Hskip; simpl; by rewrite Hd0].
  assert (Hty : Device.type d = Device.type d0) by apply Hid.
  assert (Hgo : ∀ op, Device.type d = operation_type op →
    ∃ new w',
      (call (control op) (VStr k) (verb a)
         (filter (λ kv : string * value, kv.1 ∉ ["device_id"; "action"]) a)
       ≫= λ result, run_actions actions (results ++ [result])) w
      = (Ret (results ++ new), w')
      ∧ Forall2 (answers ds) (filter (λ a, dispatched ds a) (a :: actions))
          new
      ∧ similar ds (devices (agent w'))).
  { intros op Hop. rewrite <- Hk, (call_binds _ a Ha), Hk.
    destruct (control_accepts op k (verb a)
                (filter (λ kv : string * value,
                           kv.1 ∉ ["device_id"; "action"]) a) w d Hd Hop)
      as (message & d' & Hrun & Hid' & _).
    erewrite bind_Ret by exact Hrun.
    destruct (IH (results ++ [Success message d']) (updated k d' w))
      as (new & w' & Hrest & Hall & Hsim').
    { unfold updated; simpl.
      eapply similar_insert; [exact Hsim | exact Hd0 |].
      eapply same_identity_trans; eauto. }
    exists (Success message d' :: new), w'.
    split; [rewrite Hrest; by rewrite <- app_assoc|]. split; [|done].
    rewrite filter_cons_True.
    2:{ apply Is_true_true. unfold dispatched. rewrite Hk. simpl.
        rewrite Hd0. apply bool_decide_eq_true. rewrite <- Hty, Hop.
        destruct op; simpl; rewrite !elem_of_cons; auto 10. }
    constructor; [|done]. exists d0, message, d'. rewrite Hk. simpl.
    split; [done|]. split; [done|].
    eapply same_identity_trans; eauto. }
  destruct (Device.type d) eqn:Ht.
  - by apply (Hgo ControlLight).
  - by apply (Hgo ControlThermostat).
  - by apply (Hgo ControlCamera).
  - by apply (Hgo ControlDoorLock).
  - apply Hskip. simpl. rewrite Hd0, <- Hty. apply bool_decide_eq_false.
    rewrite !elem_of_cons, elem_of_nil. intuition discriminate.
Qed.

(** C2, as amended. An enabled rule none of whose actions carries a
    keyword named [self] executes successfully, and its result list holds
    exactly one record per action whose target is a registered light,
    thermostat, camera or door lock, in the order of the action list; the
    other actions (target not registered, or a motion sensor) contribute
    nothing, and [actions_completed] is the length of the result list. *)
Theorem execute_rule_results (rule_id : string) (w : World)
  (rule : ContextualRule) :
  contextual_rules (agent w) !! rule_id = Some rule →
  ContextualRule.enabled rule = true →
  Forall (λ a, a !! "self" = None) (ContextualRule.actions rule) →
  ∃ results w',
    execute_contextual_rule rule_id w
    = (Ret (RuleSuccess (ContextualRule.name rule) results (length results)),
       w')
    ∧ Forall2 (answers (devices (agent w)))
        (filter (λ a, dispatched (devices (agent w)) a)
           (ContextualRule.actions rule))
        results
    ∧ length results
      = length (filter (λ a, dispatched (devices (agent w)) a)
                  (ContextualRule.actions rule)).
Proof.
  intros Hrule Hon Hself.
  destruct (run_actions_results (devices (agent w)) _ Hself [] w
              (similar_refl _)) as (results & w' & Hrun & Hall & _).
  simpl in Hrun. exists results, w'. split; [|split].
  - unfold execute_contextual_rule.
    erewrite bind_Ret by (unfold gets; reflexivity).
    rewrite Hrule, Hon. erewrite bind_Ret by exact Hrun. reflexivity.
  - exact Hall.
  - symmetry. eapply Forall2_length, Hall.
Qed.

Lemma execute_rule_results_witness :
  ∃ results w',
    execute_contextual_rule "bedtime_routine" fresh_0730
    = (Ret (RuleSuccess "Bedtime Automation" results (length results)), w')
    ∧ Forall2 (answers (devices (agent fresh_0730)))
        (filter (λ a, dispatched (devices (agent fresh_0730)) a)
           (ContextualRule.actions bedtime_routine))
        results
    ∧ length results
      = length (filter (λ a, dispatched (devices (agent fresh_0730)) a)
                  (ContextualRule.actions bedtime_routine)).
Proof.
  apply (execute_rule_results "bedtime_routine" fresh_0730 bedtime_routine);
    [reflexivity | reflexivity |].
  repeat (constructor; [reflexivity|]). constructor.
Defined.

(** The two ways an enabled rule of the store departs from "one record
    per action whose target resolves": the only action of [sensor_rule]
    resolves (to the motion sensor) and yields no record, and the call
    made for [keyword_rule] raises [TypeError], so that execution returns
    no record at all. *)
Lemma execute_rule_resolved_without_result :
  contextual_rules (agent extended_0730) !! "watch_motion" = Some sensor_rule
  ∧ ContextualRule.enabled sensor_rule = true
  ∧ length (filter (λ a, resolves (devices (agent extended_0730)) a)
              (ContextualRule.actions sensor_rule)) = 1%nat
  ∧ execute_contextual_rule "watch_motion" extended_0730
    = (Ret (RuleSuccess "Watch Motion" [] 0), extended_0730)
  ∧ contextual_rules (agent extended_0730) !! "keyword" = Some keyword_rule
  ∧ ContextualRule.enabled keyword_rule = true
  ∧ length (filter (λ a, resolves (devices (agent extended_0730)) a)
              (ContextualRule.actions keyword_rule)) = 1%nat
  ∧ execute_contextual_rule "keyword" extended_0730
    = (Raise (TypeError "got multiple values for argument 'self'"),
       extended_0730).
Proof. repeat split; vm_compute; reflexivity. Qed.

(** ** Suggestion engine *)

(** The tuple order on valid times is the order of their offsets from
    midnight, so [between lo t hi] is the closed interval from [lo] to
    [hi]. *)
Lemma time_le_microseconds (a b : time) :
  valid_time a → valid_time b →
  time_le a b = true ↔ (microseconds a ≤ microseconds b)%Z.
Proof.
  unfold valid_time, microseconds, time_le, time_cmp, lex.
  intros (?&?&?&?) (?&?&?&?).
  destruct (Z.compare_spec (hour a) (hour b));
    destruct (Z.compare_spec (minute a) (minute b));
    destruct (Z.compare_spec (second a) (second b));
    destruct (Z.compare_spec (microsecond a) (microsecond b));
    split; intros; try done; lia.
Qed.

Lemma any_value_empty : any_value ∅ = false.
Proof. unfold any_value. by rewrite map_to_list_empty. Qed.

(** C1, as amended. With an empty occupancy map [any] of no values is
    [False], so the away-mode suggestion is produced, at every time of day
    and for every registry of devices; at 07:30, with at most two lights
    on, the result is exactly the morning-routine suggestion followed by
    the away-mode suggestion. *)
Theorem empty_occupancy_away_mode (w : World) :
  occupancy_status (agent w) = ∅ →
  ∃ suggestions w',
    get_contextual_suggestions w = (Ret suggestions, w')
    ∧ security_suggestion ∈ suggestions
    ∧ (dt_time (clock w (ticks w)) = time_hm 7 30 →
       length (active_lights (devices (agent w))) ≤ 2 →
       suggestions = [morning_suggestion; security_suggestion]).
Proof.
  intros Hocc. unfold get_contextual_suggestions. run.
  rewrite Hocc, any_value_empty. simpl.
  do 2 eexists. split; [reflexivity|]. split.
  - repeat case_match; rewrite ?elem_of_app, ?elem_of_cons; auto 10.
  - intros Ht Hlen. rewrite Ht. rewrite decide_False by lia. reflexivity.
Qed.

Lemma empty_occupancy_away_mode_witness :
  occupancy_status (agent fresh_0730) = ∅
  ∧ ∃ suggestions w',
      get_contextual_suggestions fresh_0730 = (Ret suggestions, w')
      ∧ security_suggestion ∈ suggestions
      ∧ (dt_time (clock fresh_0730 (ticks fresh_0730)) = time_hm 7 30 →
         length (active_lights (devices (agent fresh_0730))) ≤ 2 →
         suggestions = [morning_suggestion; security_suggestion]).
Proof.
  split; [reflexivity|].
  apply (empty_occupancy_away_mode fresh_0730). reflexivity.
Defined.

(** At 07:30 with an empty occupancy map the result is not the
    morning-routine suggestion alone: a freshly constructed agent gets
    the away-mode suggestion as well, and with its three lights on the
    energy-saving suggestion too. *)
Lemma empty_occupancy_0730_suggestions :
  occupancy_status (agent fresh_0730) = ∅
  ∧ dt_time (clock fresh_0730 (ticks fresh_0730)) = time_hm 7 30
  ∧ get_contextual_suggestions fresh_0730
    = (Ret [morning_suggestion; security_suggestion], tick fresh_0730)
  ∧ occupancy_status (agent all_lit_0730) = ∅
  ∧ dt_time (clock all_lit_0730 (ticks all_lit_0730)) = time_hm 7 30
  ∧ get_contextual_suggestions all_lit_0730
    = (Ret [morning_suggestion; security_suggestion; energy_suggestion],
       tick all_lit_0730).
Proof. repeat split; vm_compute; reflexivity. Qed.

(** C6. At every time of day the result holds at most one suggestion of
    the time-of-day group: the morning routine when the time is within
    06:00-09:00, otherwise the evening wind-down when it is within
    18:00-22:00, otherwise the bedtime preparation when it is within
    22:00-23:00 (bounds included), otherwise none; at exactly 22:00 the
    evening suggestion is produced and the bedtime one is not. *)
Theorem time_bands_first_match (w : World) :
  ∃ suggestions w',
    get_contextual_suggestions w = (Ret suggestions, w')
    ∧ filter time_based suggestions
      = (let t := dt_time (clock w (ticks w)) in
         if between (time_hm 6 0) t (time_hm 9 0) then [morning_suggestion]
         else if between (time_hm 18 0) t (time_hm 22 0)
              then [evening_suggestion]
         else if between (time_hm 22 0) t (time_hm 23 0)
              then [bedtime_suggestion]
         else [])
    ∧ length (filter time_based suggestions) ≤ 1
    ∧ (dt_time (clock w (ticks w)) = time_hm 22 0 →
       evening_suggestion ∈ suggestions
       ∧ bedtime_suggestion ∉ suggestions).
Proof.
  unfold get_contextual_suggestions. run.
  do 2 eexists. split; [reflexivity|].
  destruct (between (time_hm 6 0) _ (time_hm 9 0)) eqn:E1;
    [|destruct (between (time_hm 18 0) _ (time_hm 22 0)) eqn:E2;
      [|destruct (between (time_hm 22 0) _ (time_hm 23 0)) eqn:E3]];
    destruct (negb (any_value _)); case_decide; simpl;
    (split; [reflexivity|]); (split; [simpl; lia|]);
    intros Ht; rewrite Ht in *; try discriminate;
    split; compute_done.
Qed.

Lemma time_bands_first_match_witness :
  dt_time (clock fresh_2200 (ticks fresh_2200)) = time_hm 22 0
  ∧ ∃ suggestions w',
      get_contextual_suggestions fresh_2200 = (Ret suggestions, w')
      ∧ filter time_based suggestions = [evening_suggestion]
      ∧ length (filter time_based suggestions) ≤ 1
      ∧ (dt_time (clock fresh_2200 (ticks fresh_2200)) = time_hm 22 0 →
         evening_suggestion ∈ suggestions
         ∧ bedtime_suggestion ∉ suggestions).
Proof.
  split; [reflexivity|].
  apply (time_bands_first_match fresh_2200).
Defined.

(** Once a location is recorded as occupied the away-mode suggestion is
    gone; with every recorded location unoccupied it is produced. *)
Example occupied_no_away_mode :
  fst ((set_occupancy_status "kitchen" true;; get_contextual_suggestions)
         fresh_0730)
  = Ret [morning_suggestion].
Proof. vm_compute. reflexivity. Qed.

Example all_unoccupied_away_mode :
  fst ((set_occupancy_status "kitchen" false;;
        set_occupancy_status "bedroom" false;;
        get_contextual_suggestions) fresh_2200)
  = Ret [evening_suggestion; security_suggestion].
Proof. vm_compute. reflexivity. Qed.

(** The scenarios of the default installation. *)
Example bedtime_routine_completes_four :
  ∃ results w',
    execute_contextual_rule "bedtime_routine" fresh_0730
    = (Ret (RuleSuccess "Bedtime Automation" results 4), w')
    ∧ Forall (λ r, success r = true) results.
Proof.
  do 2 eexists. split; [vm_compute; reflexivity|].
  repeat constructor.
Qed.

(** * Further properties *)

(** ** Command dispatcher: what a call can and cannot change *)

(** A control method either fails and leaves the world as it was, or
    succeeds on a registered device of its own type and rewrites that
    one registry entry. *)
Lemma control_outcome (op : operation) (device_id action : value)
  (kwargs : gmap string value) (w : World) :
  (∃ error, control op device_id action kwargs w = (Ret (Failure error), w))
  ∨ (∃ k d message d',
       device_id = VStr k
       ∧ devices (agent w) !! k = Some d
       ∧ Device.type d = operation_type op
       ∧ control op device_id action kwargs w
         = (Ret (Success message d'), updated k d' w)
       ∧ same_identity d d'
       ∧ Device.last_updated d' = clock w (ticks w)).
Proof.
  destruct (lookup_device device_id (devices (agent w))) as [d|] eqn:Hl.
  - destruct (decide (Device.type d = operation_type op)) as [Ht|Ht].
    + right. destruct device_id as [| | |k]; try discriminate.
      simpl in Hl.
      destruct (control_accepts op k action kwargs w d Hl Ht)
        as (message & d' & Hrun & Hid & Hstamp).
      by exists k, d, message, d'.
    + left. destruct op; simpl in Ht; unfold_control; run; rewrite Hl;
        rewrite decide_False by done; eexists; reflexivity.
  - left. destruct op; unfold_control; run; rewrite Hl;
      eexists; reflexivity.
Qed.

(** X1. A control operation never raises and never touches anything but
    the device it is asked about: the rules, the occupancy map and the
    user preferences are as before, the registry has the same keys, and
    the device under every other key is unchanged. *)
Theorem control_frame (op : operation) (device_id action : value)
  (kwargs : gmap string value) (w : World) :
  ∃ r w',
    control op device_id action kwargs w = (Ret r, w')
    ∧ contextual_rules (agent w') = contextual_rules (agent w)
    ∧ occupancy_status (agent w') = occupancy_status (agent w)
    ∧ user_preferences (agent w') = user_preferences (agent w)
    ∧ dom (devices (agent w')) = dom (devices (agent w))
    ∧ (∀ k, device_id ≠ VStr k →
         devices (agent w') !! k = devices (agent w) !! k).
Proof.
  destruct (control_outcome op device_id action kwargs w)
    as [(error & Hrun) | (k & d & message & d' & -> & Hd & _ & Hrun & _)];
    rewrite Hrun; do 2 eexists; (split; [reflexivity|]).
  - done.
  - simpl. repeat split.
    + apply dom_insert_lookup_L. by rewrite Hd.
    + intros k' Hne. apply lookup_insert_ne. congruence.
Qed.

(** ** Command dispatcher: the single actions *)

Section target_device.
Context (k : string) (w : World) (d : Device).
Hypothesis Hd : devices (agent w) !! k = Some d.

(** X2. Whatever the action and the keyword arguments, a control
    operation leaves every property of the targeted device outside its
    own keys as it was (a light keeps everything but brightness, color
    and temperature; a thermostat everything but target_temp and mode; a
    camera everything but recording and motion_detection; a door lock
    everything but locked), and the thermostat and camera operations
    never change the status. *)
Theorem control_written_keys (op : operation) (action : value)
  (kwargs : gmap string value) :
  ∃ r w' d',
    control op (VStr k) action kwargs w = (Ret r, w')
    ∧ devices (agent w') !! k = Some d'
    ∧ (∀ p, p ∉ written_keys op →
         Device.properties d' !! p = Device.properties d !! p)
    ∧ (op = ControlThermostat ∨ op = ControlCamera →
       Device.status d' = Device.status d).
Proof.
  destruct op; unfold_control; run; rewrite Hd; case_decide as Ht; simpl;
    do 3 eexists;
    (split; [reflexivity|]); simpl; rewrite ?lookup_insert_eq;
    (split; [by rewrite ?Hd|]); (split; [|intros [|]; try discriminate]).
  all: try done.
  all: try (intros p Hp; simpl in Hp; rewrite ?not_elem_of_cons in Hp;
            repeat case_decide; repeat case_match; simpl;
            rewrite ?lookup_insert_ne by (intros <-; intuition congruence); done).
  all: repeat case_decide; done.
Qed.

(** X3. [control_light(id, "turn_on", **kwargs)] on a registered light
    sets the status to [ON] and the brightness to the [brightness]
    argument as given (no clamping, no type check), or to 100 without
    one; color and temperature are replaced when given and kept
    otherwise. *)
Theorem turn_on_light (kwargs : gmap string value) :
  Device.type d = LIGHT →
  ∃ r w' d',
    control_light (VStr k) (VStr "turn_on") kwargs w = (Ret r, w')
    ∧ success r = true
    ∧ devices (agent w') !! k = Some d'
    ∧ Device.status d' = ON
    ∧ Device.properties d' !! "brightness"
      = Some (default (VInt 100) (kwargs !! "brightness"))
    ∧ Device.properties d' !! "color"
      = match kwargs !! "color" with
        | Some c => Some c
        | None => Device.properties d !! "color"
        end
    ∧ Device.properties d' !! "temperature"
      = match kwargs !! "temperature" with
        | Some c => Some c
        | None => Device.properties d !! "temperature"
        end.
Proof.
  intros Ht. unfold control_light. run. rewrite Hd.
  rewrite decide_True by done. simpl.
  do 3 eexists. split; [reflexivity|]. simpl.
  rewrite lookup_insert_eq. repeat split; try done;
    repeat case_match; simpl;
    rewrite ?lookup_insert_eq, ?lookup_insert_ne by done;
    rewrite ?lookup_insert_eq, ?lookup_insert_ne by done; done.
Qed.

(** X4. [control_light(id, "set_brightness")] on a light whose status is
    not [ON] reports success and changes neither a property nor the
    status. *)
Theorem set_brightness_needs_on (kwargs : gmap string value) :
  Device.type d = LIGHT →
  Device.status d ≠ ON →
  ∃ r w' d',
    control_light (VStr k) (VStr "set_brightness") kwargs w = (Ret r, w')
    ∧ success r = true
    ∧ devices (agent w') !! k = Some d'
    ∧ Device.properties d' = Device.properties d
    ∧ Device.status d' = Device.status d.
Proof.
  intros Ht Hs. unfold control_light. run. rewrite Hd.
  rewrite decide_True by done. simpl. rewrite decide_False by done.
  do 3 eexists. split; [reflexivity|]. simpl.
  rewrite lookup_insert_eq. done.
Qed.

(** X5. After [turn_off], a [set_brightness] with any arguments leaves
    the light off with brightness 0. *)
Theorem turn_off_then_set_brightness (kwargs1 kwargs2 : gmap string value) :
  Device.type d = LIGHT →
  ∃ r w' d',
    (control_light (VStr k) (VStr "turn_off") kwargs1;;
     control_light (VStr k) (VStr "set_brightness") kwargs2) w = (Ret r, w')
    ∧ success r = true
    ∧ devices (agent w') !! k = Some d'
    ∧ Device.status d' = OFF
    ∧ Device.properties d' !! "brightness" = Some (VInt 0).
Proof.
  intros Ht. unfold control_light. run. rewrite Hd.
  rewrite decide_True by done. simpl.
  rewrite lookup_insert_eq. simpl. rewrite decide_True by done.
  do 3 eexists. split; [reflexivity|]. simpl.
  rewrite !lookup_insert_eq. repeat split; try done.
  simpl. apply lookup_insert_eq.
Qed.

(** X6. On a registered thermostat, [set_temperature] stores the
    [temperature] argument (72 without one) under [target_temp] and
    [set_mode] stores the [mode] argument ("auto" without one) under
    [mode]; every other property, the current [temperature] reading
    included, and the status are kept. *)
Theorem thermostat_settings (kwargs : gmap string value) :
  Device.type d = THERMOSTAT →
  (∃ r w' d',
     control_thermostat (VStr k) (VStr "set_temperature") kwargs w
     = (Ret r, w')
     ∧ success r = true
     ∧ devices (agent w') !! k = Some d'
     ∧ Device.status d' = Device.status d
     ∧ Device.properties d'
       = <["target_temp" := default (VInt 72) (kwargs !! "temperature")]>
           (Device.properties d))
  ∧ (∃ r w' d',
       control_thermostat (VStr k) (VStr "set_mode") kwargs w = (Ret r, w')
       ∧ success r = true
       ∧ devices (agent w') !! k = Some d'
       ∧ Device.status d' = Device.status d
       ∧ Device.properties d'
         = <["mode" := default (VStr "auto") (kwargs !! "mode")]>
             (Device.properties d)).
Proof.
  intros Ht. split; unfold control_thermostat; run; rewrite Hd;
    rewrite decide_True by done; simpl;
    do 3 eexists; (split; [reflexivity|]); simpl;
    rewrite lookup_insert_eq; done.
Qed.

(** X7. Toggling the motion detection of a camera twice, when the
    property holds a boolean, restores all its properties and its
    status. *)
Theorem toggle_motion_detection_twice (b : bool)
  (kwargs1 kwargs2 : gmap string value) :
  Device.type d = SECURITY_CAMERA →
  Device.properties d !! "motion_detection" = Some (VBool b) →
  ∃ r w' d',
    (control_camera (VStr k) (VStr "toggle_motion_detection") kwargs1;;
     control_camera (VStr k) (VStr "toggle_motion_detection") kwargs2) w
    = (Ret r, w')
    ∧ success r = true
    ∧ devices (agent w') !! k = Some d'
    ∧ Device.properties d' = Device.properties d
    ∧ Device.status d' = Device.status d.
Proof.
  intros Ht Hb. unfold control_camera. run. rewrite Hd.
  rewrite decide_True by done. simpl.
  rewrite lookup_insert_eq. simpl. rewrite decide_True by done.
  do 3 eexists. split; [reflexivity|]. simpl.
  rewrite !lookup_insert_eq. repeat split; try done.
  simpl. rewrite Hb. simpl.
  rewrite insert_insert_eq, negb_involutive. by apply insert_id.
Qed.

(** X8. Toggling the motion detection of a camera that has no such
    property creates it with the value [False]: the missing value counts
    as [True]. *)
Theorem toggle_motion_detection_unset (kwargs : gmap string value) :
  Device.type d = SECURITY_CAMERA →
  Device.properties d !! "motion_detection" = None →
  ∃ r w' d',
    control_camera (VStr k) (VStr "toggle_motion_detection") kwargs w
    = (Ret r, w')
    ∧ success r = true
    ∧ devices (agent w') !! k = Some d'
    ∧ Device.properties d' !! "motion_detection" = Some (VBool false).
Proof.
  intros Ht Hb. unfold control_camera. run. rewrite Hd.
  rewrite decide_True by done. simpl.
  do 3 eexists. split; [reflexivity|]. simpl.
  rewrite !lookup_insert_eq. repeat split; try done.
  simpl. by rewrite lookup_insert_eq, Hb.
Qed.

End target_device.

Lemma control_written_keys_witness :
  ∃ r w' d',
    control ControlDoorLock (VStr "front_door_lock") (VStr "unlock") ∅
      fresh_0730 = (Ret r, w')
    ∧ devices (agent w') !! "front_door_lock" = Some d'
    ∧ (∀ p, p ∉ written_keys ControlDoorLock →
         Device.properties d' !! p = Device.properties front_door_lock !! p)
    ∧ (ControlDoorLock = ControlThermostat ∨ ControlDoorLock = ControlCamera →
       Device.status d' = Device.status front_door_lock).
Proof.
  apply (control_written_keys "front_door_lock" fresh_0730 front_door_lock).
  reflexivity.
Defined.

Lemma turn_on_light_witness :
  ∃ r w' d',
    control_light (VStr "kitchen_light") (VStr "turn_on")
      {[ "brightness" := VInt 150 ]} fresh_0730 = (Ret r, w')
    ∧ success r = true
    ∧ devices (agent w') !! "kitchen_light" = Some d'
    ∧ Device.status d' = ON
    ∧ Device.properties d' !! "brightness" = Some (VInt 150)
    ∧ Device.properties d' !! "color" = Some (VStr "white")
    ∧ Device.properties d' !! "temperature" = Some (VInt 4000).
Proof.
  apply (turn_on_light "kitchen_light" fresh_0730 kitchen_light);
    reflexivity.
Defined.

Lemma set_brightness_needs_on_witness :
  ∃ r w' d',
    control_light (VStr "kitchen_light") (VStr "set_brightness")
      {[ "brightness" := VInt 40 ]} fresh_0730 = (Ret r, w')
    ∧ success r = true
    ∧ devices (agent w') !! "kitchen_light" = Some d'
    ∧ Device.properties d' = Device.properties kitchen_light
    ∧ Device.status d' = Device.status kitchen_light.
Proof.
  apply (set_brightness_needs_on "kitchen_light" fresh_0730 kitchen_light);
    [reflexivity | reflexivity | discriminate].
Defined.

Lemma turn_off_then_set_brightness_witness :
  ∃ r w' d',
    (control_light (VStr "living_room_light") (VStr "turn_off") ∅;;
     control_light (VStr "living_room_light") (VStr "set_brightness")
       {[ "brightness" := VInt 40 ]}) lit_0730 = (Ret r, w')
    ∧ success r = true
    ∧ devices (agent w') !! "living_room_light" = Some d'
    ∧ Device.status d' = OFF
    ∧ Device.properties d' !! "brightness" = Some (VInt 0).
Proof.
  eapply (turn_off_then_set_brightness "living_room_light" lit_0730);
    reflexivity.
Defined.

Lemma thermostat_settings_witness :
  (∃ r w' d',
     control_thermostat (VStr "main_thermostat") (VStr "set_temperature")
       {[ "temperature" := VInt 68 ]} fresh_0730 = (Ret r, w')
     ∧ success r = true
     ∧ devices (agent w') !! "main_thermostat" = Some d'
     ∧ Device.status d' = Device.status main_thermostat
     ∧ Device.properties d'
       = <["target_temp" := VInt 68]> (Device.properties main_thermostat))
  ∧ (∃ r w' d',
       control_thermostat (VStr "main_thermostat") (VStr "set_mode")
         {[ "temperature" := VInt 68 ]} fresh_0730 = (Ret r, w')
       ∧ success r = true
       ∧ devices (agent w') !! "main_thermostat" = Some d'
       ∧ Device.status d' = Device.status main_thermostat
       ∧ Device.properties d'
         = <["mode" := VStr "auto"]> (Device.properties main_thermostat)).
Proof.
  apply (thermostat_settings "main_thermostat" fresh_0730 main_thermostat);
    reflexivity.
Defined.

Lemma toggle_motion_detection_twice_witness :
  ∃ r w' d',
    (control_camera (VStr "front_door_camera")
       (VStr "toggle_motion_detection") ∅;;
     control_camera (VStr "front_door_camera")
       (VStr "toggle_motion_detection") ∅) fresh_0730 = (Ret r, w')
    ∧ success r = true
    ∧ devices (agent w') !! "front_door_camera" = Some d'
    ∧ Device.properties d' = Device.properties front_door_camera
    ∧ Device.status d' = Device.status front_door_camera.
Proof.
  apply (toggle_motion_detection_twice "front_door_camera" fresh_0730
           front_door_camera) with (b := true);
    reflexivity.
Defined.

Lemma toggle_motion_detection_unset_witness :
  ∃ r w' d',
    control_camera (VStr "porch_camera") (VStr "toggle_motion_detection") ∅
      porch_0730 = (Ret r, w')
    ∧ success r = true
    ∧ devices (agent w') !! "porch_camera" = Some d'
    ∧ Device.properties d' !! "motion_detection" = Some (VBool false).
Proof.
  apply (toggle_motion_detection_unset "porch_camera" porch_0730
           porch_camera);
    reflexivity.
Defined.

(** ** Invariants of the registry *)

Lemma control_device_ok (op : operation) (k : string) (action : value)
  (kwargs : gmap string value) (w : World) (d d' : Device) :
  devices (agent w) !! k = Some d →
  light_off_dark d ∧ lock_consistent d →
  devices (agent (control op (VStr k) action kwargs w).2) !! k = Some d' →
  light_off_dark d' ∧ lock_consistent d'.
Proof.
  intros Hd [Hl Hk].
  destruct op; unfold_control; run; rewrite Hd; case_decide as Ht; simpl;
    rewrite ?lookup_insert_eq, ?Hd; intros [= <-];
    unfold light_off_dark, lock_consistent in *; simpl;
    repeat case_decide; repeat case_match; simpl;
    (split; [intros Ht' Hs | intros Ht']);
    rewrite ?lookup_insert_eq; try congruence; auto.
Qed.

Lemma control_registry_ok (op : operation) (device_id action : value)
  (kwargs : gmap string value) (w : World) :
  registry_ok (devices (agent w)) →
  registry_ok (devices (agent (control op device_id action kwargs w).2)).
Proof.
  intros Hok.
  destruct (control_outcome op device_id action kwargs w)
    as [(error & Hrun) | (k & d & message & d' & -> & Hd & _ & Hrun & _)].
  - by rewrite Hrun.
  - pose proof (control_device_ok op k action kwargs w d d' Hd) as Hdev.
    rewrite Hrun in *. simpl in *.
    apply map_Forall_insert_2; [|done].
    apply Hdev; [by apply (Hok k d)|apply lookup_insert_eq].
Qed.

(** ** The loop over the actions keeps what every control call keeps *)

Section run_actions_invariant.
Context (P : World → Prop) (Q : value → Prop).
Hypothesis control_keeps :
  ∀ op device_id action kwargs w,
    Q device_id → P w → P (control op device_id action kwargs w).2.

Lemma call_keeps (op : operation) (device_id action : value)
  (kwargs : gmap string value) (w : World) :
  Q device_id → P w → P (call (control op) device_id action kwargs w).2.
Proof.
  intros HQ HP. unfold call.
  destruct (List.find _ _); [done | by apply control_keeps].
Qed.

Lemma run_actions_keeps (actions : list (gmap string value)) :
  Forall (λ a, Q (target a)) actions →
  ∀ results w, P w → P (run_actions actions results w).2.
Proof.
  induction 1 as [|a actions Ha _ IH]; intros results w HP; [done|].
  simpl run_actions. fold (target a) (verb a).
  erewrite bind_Ret by (unfold get_device, gets; reflexivity).
  assert (Hgo : ∀ op,
    P ((call (control op) (target a) (verb a)
          (filter (λ kv : string * value, kv.1 ∉ ["device_id"; "action"]) a)
        ≫= λ result, run_actions actions (results ++ [result])) w).2).
  { intros op. unfold mbind, M_bind.
    pose proof (call_keeps op (target a) (verb a)
                  (filter (λ kv : string * value,
                             kv.1 ∉ ["device_id"; "action"]) a) w Ha HP)
      as Hcall.
    destruct (call _ _ _ _ w) as [[r|e] w1]; simpl in *; [by apply IH|done]. }
  destruct (lookup_device _ _) as [d|]; [|by apply IH].
  destruct (Device.type d).
  - apply (Hgo ControlLight).
  - apply (Hgo ControlThermostat).
  - apply (Hgo ControlCamera).
  - apply (Hgo ControlDoorLock).
  - by apply IH.
Qed.

Lemma execute_keeps (rule_id : string) (w : World) :
  (∀ rule, contextual_rules (agent w) !! rule_id = Some rule →
           Forall (λ a, Q (target a)) (ContextualRule.actions rule)) →
  P w → P (execute_contextual_rule rule_id w).2.
Proof.
  intros HQ HP. unfold execute_contextual_rule.
  erewrite bind_Ret by (unfold gets; reflexivity).
  destruct (contextual_rules (agent w) !! rule_id) as [rule|]; [|done].
  destruct (ContextualRule.enabled rule); [|done].
  unfold mbind, M_bind.
  pose proof (run_actions_keeps (ContextualRule.actions rule)
                (HQ rule eq_refl) [] w HP) as Hrun.
  destruct (run_actions _ _ w) as [[r|e] w1]; done.
Qed.
End run_actions_invariant.

(** X9. Any control operation with any arguments, and the execution of
    any rule, whether it returns or raises, keep the two invariants of
    the registry: every light that is off has brightness 0, and every
    door lock is either off with [locked = True] or on with
    [locked = False]. *)
Theorem registry_ok_preserved (w : World) :
  registry_ok (devices (agent w)) →
  (∀ op device_id action kwargs,
     registry_ok (devices (agent (control op device_id action kwargs w).2)))
  ∧ (∀ rule_id,
       registry_ok (devices (agent (execute_contextual_rule rule_id w).2))).
Proof.
  intros Hok. split.
  - intros. by apply control_registry_ok.
  - intros rule_id.
    apply (execute_keeps (λ w, registry_ok (devices (agent w)))
             (λ _, True)); [|by intros; apply Forall_true|done].
    intros. by apply control_registry_ok.
Qed.

(** X10. Executing a rule, whether it returns or raises, never changes
    the rule store, the occupancy map or the user preferences, never
    adds or removes a device, and never changes the id, name, type or
    location of a device. *)
Theorem execute_rule_frame (rule_id : string) (w : World) :
  let w' := (execute_contextual_rule rule_id w).2 in
  contextual_rules (agent w') = contextual_rules (agent w)
  ∧ occupancy_status (agent w') = occupancy_status (agent w)
  ∧ user_preferences (agent w') = user_preferences (agent w)
  ∧ clock w' = clock w
  ∧ dom (devices (agent w')) = dom (devices (agent w))
  ∧ similar (devices (agent w)) (devices (agent w')).
Proof.
  apply (execute_keeps
           (λ w', contextual_rules (agent w') = contextual_rules (agent w)
                  ∧ occupancy_status (agent w') = occupancy_status (agent w)
                  ∧ user_preferences (agent w') = user_preferences (agent w)
                  ∧ clock w' = clock w
                  ∧ dom (devices (agent w')) = dom (devices (agent w))
                  ∧ similar (devices (agent w)) (devices (agent w')))
           (λ _, True)).
  - intros op device_id action kwargs w1 _ (Hr & Ho & Hu & Hc & Hdom & Hsim).
    destruct (control_outcome op device_id action kwargs w1)
      as [(error & Hrun) | (k & d & message & d' & -> & Hd & _ & Hrun & Hid & _)];
      rewrite Hrun; simpl; [done|].
    repeat split; try done.
    + rewrite <- Hdom. apply dom_insert_lookup_L. by rewrite Hd.
    + pose proof (Hsim k) as Hk. rewrite Hd in Hk.
      inversion Hk as [d0 ? Hid0 Heq|]; subst.
      eapply similar_insert; [done| done |].
      eapply same_identity_trans; eauto.
  - intros. by apply Forall_true.
  - repeat split; try done. apply similar_refl.
Qed.

(** X11. A device that none of the actions of a rule targets is left
    exactly as it was by the execution of that rule, [last_updated]
    included. *)
Theorem execute_rule_untargeted (rule_id : string) (w : World)
  (rule : ContextualRule) (k : string) :
  contextual_rules (agent w) !! rule_id = Some rule →
  Forall (λ a, target a ≠ VStr k) (ContextualRule.actions rule) →
  devices (agent (execute_contextual_rule rule_id w).2) !! k
  = devices (agent w) !! k.
Proof.
  intros Hrule Huntouched.
  apply (execute_keeps
           (λ w', devices (agent w') !! k = devices (agent w) !! k)
           (λ id, id ≠ VStr k)).
  - intros op device_id action kwargs w1 Hne Hsame.
    destruct (control_outcome op device_id action kwargs w1)
      as [(error & Hrun) | (k' & d & message & d' & -> & Hd & _ & Hrun & _)];
      rewrite Hrun; simpl; [done|].
    rewrite lookup_insert_ne by congruence. done.
  - intros rule' Hrule'. congruence.
  - done.
Qed.

Lemma registry_ok_preserved_witness :
  (∀ op device_id action kwargs,
     registry_ok
       (devices (agent (control op device_id action kwargs fresh_0730).2)))
  ∧ (∀ rule_id,
       registry_ok
         (devices (agent (execute_contextual_rule rule_id fresh_0730).2))).
Proof.
  apply (registry_ok_preserved fresh_0730).
  apply (bool_decide_unpack _). vm_compute. reflexivity.
Defined.

Lemma execute_rule_untargeted_witness :
  devices (agent (execute_contextual_rule "bedtime_routine" fresh_0730).2)
    !! "front_door_lock"
  = devices (agent fresh_0730) !! "front_door_lock".
Proof.
  apply (execute_rule_untargeted "bedtime_routine" fresh_0730
           bedtime_routine "front_door_lock"); [reflexivity|].
  apply (bool_decide_unpack _). vm_compute. reflexivity.
Defined.

(** ** Rule executor: clock readings and faults *)

Lemma run_actions_stamps (actions : list (gmap string value)) :
  Forall (λ a, a !! "self" = None) actions →
  ∀ results w,
    ∃ new w',
      run_actions actions results w = (Ret (results ++ new), w')
      ∧ clock w' = clock w
      ∧ ticks w' = ticks w + length new
      ∧ ∀ i r, new !! i = Some r →
          ∃ message d,
            r = Success message d
            ∧ Device.last_updated d = clock w (ticks w + i).
Proof.
  induction 1 as [|a actions Ha _ IH]; intros results w.
  { exists [], w. rewrite app_nil_r. simpl.
    repeat split; [lia | intros i r Hi; by rewrite lookup_nil in Hi]. }
  simpl run_actions. fold (target a) (verb a).
  erewrite bind_Ret by (unfold get_device, gets; reflexivity).
  destruct (target a) as [| | |k] eqn:Hk; simpl; try apply IH.
  destruct (devices (agent w) !! k) as [d|] eqn:Hd; [|apply IH].
  assert (Hgo : ∀ op, Device.type d = operation_type op →
    ∃ new w',
      (call (control op) (VStr k) (verb a)
         (filter (λ kv : string * value, kv.1 ∉ ["device_id"; "action"]) a)
       ≫= λ result, run_actions actions (results ++ [result])) w
      = (Ret (results ++ new), w')
      ∧ clock w' = clock w
      ∧ ticks w' = ticks w + length new
      ∧ ∀ i r, new !! i = Some r →
          ∃ message d,
            r = Success message d
            ∧ Device.last_updated d = clock w (ticks w + i)).
  { intros op Hop. rewrite <- Hk, (call_binds _ a Ha), Hk.
    destruct (control_accepts op k (verb a)
                (filter (λ kv : string * value,
                           kv.1 ∉ ["device_id"; "action"]) a) w d Hd Hop)
      as (message & d' & Hrun & _ & Hstamp).
    erewrite bind_Ret by exact Hrun.
    destruct (IH (results ++ [Success message d']) (updated k d' w))
      as (new & w' & Hrest & Hclock & Hticks & Hall).
    exists (Success message d' :: new), w'.
    split; [rewrite Hrest; by rewrite <- app_assoc|].
    split; [done|]. split; [simpl in *; lia|].
    intros [|i] r Hi; simpl in Hi.
    - injection Hi as <-. exists message, d'. by rewrite Nat.add_0_r.
    - destruct (Hall i r Hi) as (m & d1 & -> & Hd1).
      exists m, d1. split; [done|]. rewrite Hd1. simpl. f_equal. lia. }
  destruct (Device.type d) eqn:Ht.
  - by apply (Hgo ControlLight).
  - by apply (Hgo ControlThermostat).
  - by apply (Hgo ControlCamera).
  - by apply (Hgo ControlDoorLock).
  - apply IH.
Qed.

(** X12. A rule that executes normally reads the clock once per
    completed action: every entry of the result list is a success, the
    snapshot of the [i]-th entry is stamped with the [i]-th reading made
    since the call, and no other reading is made. *)
Theorem execute_rule_stamps (rule_id : string) (w : World)
  (rule : ContextualRule) :
  contextual_rules (agent w) !! rule_id = Some rule →
  ContextualRule.enabled rule = true →
  Forall (λ a, a !! "self" = None) (ContextualRule.actions rule) →
  ∃ results w',
    execute_contextual_rule rule_id w
    = (Ret (RuleSuccess (ContextualRule.name rule) results (length results)),
       w')
    ∧ ticks w' = ticks w + length results
    ∧ ∀ i r, results !! i = Some r →
        success r = true
        ∧ ∃ message d,
            r = Success message d
            ∧ Device.last_updated d = clock w (ticks w + i).
Proof.
  intros Hrule Hon Hself.
  destruct (run_actions_stamps _ Hself [] w)
    as (results & w' & Hrun & _ & Hticks & Hall).
  simpl in Hrun. exists results, w'. split; [|split; [done|]].
  - unfold execute_contextual_rule.
    erewrite bind_Ret by (unfold gets; reflexivity).
    rewrite Hrule, Hon. erewrite bind_Ret by exact Hrun. reflexivity.
  - intros i r Hi. destruct (Hall i r Hi) as (m & d & -> & Hd).
    split; [done|]. by exists m, d.
Qed.

Lemma run_actions_app (pre post : list (gmap string value)) :
  ∀ results w,
    run_actions (pre ++ post) results w
    = match run_actions pre results w with
      | (Ret rs, w') => run_actions post rs w'
      | (Raise e, w') => (Raise e, w')
      end.
Proof.
  induction pre as [|a pre IH]; intros results w; [done|].
  simpl.
  do 2 erewrite bind_Ret by (unfold get_device, gets; reflexivity).
  destruct (lookup_device _ _) as [d|]; [|apply IH].
  destruct (Device.type d); try apply IH;
    unfold mbind, M_bind;
    (destruct (call _ _ _ _ w) as [[r|e] w1]; [apply IH | done]).
Qed.

(** X13. When an action that targets a registered light, thermostat,
    camera or door lock carries a keyword named [self], executing the
    rule raises [TypeError] at that action; the actions before it have
    been carried out and stay so, and the later ones are not run. *)
Theorem execute_rule_keyword_clash (rule_id : string) (w : World)
  (rule : ContextualRule) (pre post : list (gmap string value))
  (bad : gmap string value) :
  contextual_rules (agent w) !! rule_id = Some rule →
  ContextualRule.enabled rule = true →
  ContextualRule.actions rule = pre ++ bad :: post →
  Forall (λ a, a !! "self" = None) pre →
  is_Some (bad !! "self") →
  dispatched (devices (agent w)) bad = true →
  ∃ results w',
    run_actions pre [] w = (Ret results, w')
    ∧ execute_contextual_rule rule_id w
      = (Raise (TypeError "got multiple values for argument 'self'"), w').
Proof.
  intros Hrule Hon Hactions Hpre Hbad Hdisp.
  destruct (run_actions_results (devices (agent w)) pre Hpre [] w
              (similar_refl _)) as (results & w' & Hrun & _ & Hsim).
  simpl in Hrun. exists results, w'. split; [done|].
  unfold execute_contextual_rule.
  erewrite bind_Ret by (unfold gets; reflexivity).
  rewrite Hrule, Hon, Hactions.
  unfold mbind, M_bind. rewrite run_actions_app, Hrun.
  simpl run_actions. fold (target bad) (verb bad).
  unfold mbind at 1, M_bind at 1. unfold get_device, gets.
  unfold dispatched in Hdisp.
  destruct (target bad) as [| | |k] eqn:Hk; simpl in *; try done.
  pose proof (Hsim k) as Hrel.
  destruct (devices (agent w) !! k) as [d0|] eqn:Hd0; [|done].
  inversion Hrel as [? d Hid Ha Hb|]; subst.
  assert (Hty : Device.type d = Device.type d0) by apply Hid.
  apply bool_decide_eq_true in Hdisp. rewrite <- Hty in Hdisp.
  rewrite <- Hk.
  destruct (Device.type d);
    try (unfold mbind, M_bind; by rewrite call_clash).
  exfalso. revert Hdisp. rewrite !elem_of_cons, elem_of_nil.
  intuition discriminate.
Qed.

Lemma execute_rule_stamps_witness :
  ∃ results w',
    execute_contextual_rule "bedtime_routine" fresh_0730
    = (Ret (RuleSuccess "Bedtime Automation" results (length results)), w')
    ∧ ticks w' = ticks fresh_0730 + length results
    ∧ ∀ i r, results !! i = Some r →
        success r = true
        ∧ ∃ message d,
            r = Success message d
            ∧ Device.last_updated d
              = clock fresh_0730 (ticks fresh_0730 + i).
Proof.
  apply (execute_rule_stamps "bedtime_routine" fresh_0730 bedtime_routine);
    [reflexivity | reflexivity |].
  apply (bool_decide_unpack _). vm_compute. reflexivity.
Defined.

Lemma execute_rule_keyword_clash_witness :
  Device.status <$> (devices (agent partial_0730) !! "living_room_light")
  = Some OFF
  ∧ ∃ results w',
      run_actions [rule_action "living_room_light" "turn_on" []] []
        partial_0730 = (Ret results, w')
      ∧ execute_contextual_rule "partial" partial_0730
        = (Raise (TypeError "got multiple values for argument 'self'"), w').
Proof.
  split; [reflexivity|].
  apply (execute_rule_keyword_clash "partial" partial_0730 partial_rule
           [rule_action "living_room_light" "turn_on" []]
           [rule_action "bedroom_light" "turn_on" []]
           (rule_action "kitchen_light" "turn_on" [("self", VInt 1)]));
    try reflexivity.
  - apply (bool_decide_unpack _). vm_compute. reflexivity.
  - eexists. reflexivity.
Defined.

(** ** Suggestion engine: when each suggestion appears *)

Lemma any_value_true (occ : gmap string bool) :
  any_value occ = true ↔ ∃ loc, occ !! loc = Some true.
Proof.
  unfold any_value. rewrite existsb_exists. split.
  - intros (b & Hin & ->). apply list_elem_of_In, list_elem_of_fmap in Hin.
    destruct Hin as ([loc b] & Hb & Hin). simpl in Hb. subst.
    exists loc. by apply elem_of_map_to_list.
  - intros (loc & Hloc). exists true. split; [|done].
    apply list_elem_of_In, list_elem_of_fmap. exists (loc, true).
    split; [done|]. by apply elem_of_map_to_list.
Qed.

Lemma active_lights_size (ds : gmap string Device) :
  length (active_lights ds)
  = size (filter (λ kv : string * Device, lit kv.2) ds).
Proof.
  unfold active_lights.
  induction ds as [|k d m Hk Hfirst IH] using map_first_key_ind.
  - by rewrite map_to_list_empty, map_filter_empty, map_size_empty.
  - rewrite map_to_list_insert_first_key by done.
    rewrite fmap_cons, filter_cons. simpl.
    destruct (decide (Device.type d = LIGHT ∧ Device.status d = ON))
      as [Hlit|Hlit].
    + rewrite map_filter_insert_True by done.
      rewrite map_size_insert_None
        by (apply map_lookup_filter_None; by left).
      simpl. by rewrite IH.
    + rewrite map_filter_insert_not' by (done || (intros y Hy; congruence)).
      done.
Qed.

(** X14. [get_contextual_suggestions] never raises and changes nothing
    of the agent: it only consumes one reading of the clock. Its result
    holds at most three suggestions without repetition, in the fixed
    order time of day, away mode, energy saving. *)
Theorem suggestions_read_only (w : World) :
  ∃ suggestions s,
    get_contextual_suggestions w = (Ret suggestions, tick w)
    ∧ agent (tick w) = agent w
    ∧ s ∈ [morning_suggestion; evening_suggestion; bedtime_suggestion]
    ∧ suggestions `sublist_of` [s; security_suggestion; energy_suggestion].
Proof.
  unfold get_contextual_suggestions. run.
  destruct (between (time_hm 6 0) _ (time_hm 9 0));
    [|destruct (between (time_hm 18 0) _ (time_hm 22 0));
      [|destruct (between (time_hm 22 0) _ (time_hm 23 0))]];
    destruct (negb (any_value _)); case_decide; simpl;
    eexists; first
      [ exists morning_suggestion;
        split; [reflexivity|]; split; [reflexivity|];
        split; [rewrite !elem_of_cons; auto|];
        repeat first [apply sublist_nil | apply sublist_skip
                     | apply sublist_cons]; fail
      | exists evening_suggestion;
        split; [reflexivity|]; split; [reflexivity|];
        split; [rewrite !elem_of_cons; auto|];
        repeat first [apply sublist_nil | apply sublist_skip
                     | apply sublist_cons]; fail
      | exists bedtime_suggestion;
        split; [reflexivity|]; split; [reflexivity|];
        split; [rewrite !elem_of_cons; auto|];
        repeat first [apply sublist_nil | apply sublist_skip
                     | apply sublist_cons] ].
Qed.

(** X15. The away-mode suggestion is produced exactly when no location
    is recorded as occupied, and the energy-saving suggestion exactly
    when more than two registered lights are on; neither depends on the
    time of day. *)
Theorem away_and_energy_conditions (w : World) :
  ∃ suggestions w',
    get_contextual_suggestions w = (Ret suggestions, w')
    ∧ (security_suggestion ∈ suggestions
       ↔ ∀ loc, occupancy_status (agent w) !! loc ≠ Some true)
    ∧ (energy_suggestion ∈ suggestions
       ↔ 2 < size (filter (λ kv : string * Device, lit kv.2)
                     (devices (agent w)))).
Proof.
  unfold get_contextual_suggestions. run.
  rewrite <- active_lights_size.
  do 2 eexists. split; [reflexivity|].
  assert (Hany : (∀ loc, occupancy_status (agent w) !! loc ≠ Some true)
                 ↔ any_value (occupancy_status (agent w)) = false).
  { rewrite <- not_true_iff_false, any_value_true. split.
    - intros Hno (loc & Hloc). by apply (Hno loc).
    - intros Hno loc Hloc. apply Hno. by exists loc. }
  rewrite Hany.
  destruct (between (time_hm 6 0) _ (time_hm 9 0));
    [|destruct (between (time_hm 18 0) _ (time_hm 22 0));
      [|destruct (between (time_hm 22 0) _ (time_hm 23 0))]];
    destruct (any_value _); case_decide; simpl;
    (split; split; intros Hx; try done; try lia;
     try (exfalso; revert Hx; compute_done); compute_done).
Qed.

(** X16. For a valid time of day, measured in microseconds since
    midnight: the morning suggestion is produced exactly from 06:00 to
    09:00, the evening one exactly from 18:00 to 22:00, and the bedtime
    one exactly after 22:00 and up to 23:00, bounds included where
    stated; one microsecond past 09:00, or at 23:00:00.000001, there is
    none. *)
Theorem suggestion_bands (w : World) :
  valid_time (dt_time (clock w (ticks w))) →
  ∃ suggestions w',
    get_contextual_suggestions w = (Ret suggestions, w')
    ∧ let us := microseconds (dt_time (clock w (ticks w))) in
      (morning_suggestion ∈ suggestions
       ↔ (6 * 3600000000 ≤ us ≤ 9 * 3600000000)%Z)
      ∧ (evening_suggestion ∈ suggestions
         ↔ (18 * 3600000000 ≤ us ≤ 22 * 3600000000)%Z)
      ∧ (bedtime_suggestion ∈ suggestions
         ↔ (22 * 3600000000 < us ≤ 23 * 3600000000)%Z).
Proof.
  intros Hvalid. unfold get_contextual_suggestions. run.
  do 2 eexists. split; [reflexivity|].
  set (t := dt_time (clock w (ticks w))) in *.
  assert (Hband : ∀ h1 h2, (0 ≤ h1 < 24)%Z → (0 ≤ h2 < 24)%Z →
    between (time_hm h1 0) t (time_hm h2 0) = true
    ↔ (h1 * 3600000000 ≤ microseconds t ≤ h2 * 3600000000)%Z).
  { intros h1 h2 H1 H2. unfold between. rewrite andb_true_iff.
    rewrite !time_le_microseconds
      by (done || (unfold valid_time, time_hm; simpl; lia)).
    unfold microseconds at 1 4, time_hm. simpl. lia. }
  pose proof (Hband 6 9 ltac:(lia) ltac:(lia))%Z as H1.
  pose proof (Hband 18 22 ltac:(lia) ltac:(lia))%Z as H2.
  pose proof (Hband 22 23 ltac:(lia) ltac:(lia))%Z as H3.
  destruct (between (time_hm 6 0) t (time_hm 9 0));
    [|destruct (between (time_hm 18 0) t (time_hm 22 0));
      [|destruct (between (time_hm 22 0) t (time_hm 23 0))]];
    destruct (negb (any_value _)); case_decide; simpl;
    (split; [|split]);
    (split; intros Hx;
     [ first [ exfalso; revert Hx; compute_done
             | intuition lia ]
     | first [ compute_done
             | exfalso; intuition (try discriminate; try lia) ] ]).
Qed.

Lemma suggestion_bands_witness :
  ∃ suggestions w',
    get_contextual_suggestions fresh_0730 = (Ret suggestions, w')
    ∧ let us := microseconds (dt_time (clock fresh_0730 (ticks fresh_0730))) in
      (morning_suggestion ∈ suggestions
       ↔ (6 * 3600000000 ≤ us ≤ 9 * 3600000000)%Z)
      ∧ (evening_suggestion ∈ suggestions
         ↔ (18 * 3600000000 ≤ us ≤ 22 * 3600000000)%Z)
      ∧ (bedtime_suggestion ∈ suggestions
         ↔ (22 * 3600000000 < us ≤ 23 * 3600000000)%Z).
Proof.
  apply (suggestion_bands fresh_0730).
  unfold valid_time. simpl. lia.
Defined.

(** ** Occupancy tracker *)

(** X17. [set_occupancy_status] overwrites: two calls for the same
    location leave the occupancy map as a single call with the second
    value would, whatever was recorded before; the confirmation repeats
    the location and the value, and devices and rules are untouched. *)
Theorem set_occupancy_overwrites (location : string) (b1 b2 : bool)
  (w : World) :
  ∃ c1 c2 w1 w2,
    set_occupancy_status location b1 w = (Ret c1, w1)
    ∧ set_occupancy_status location b2 w1 = (Ret c2, w2)
    ∧ conf_success c2 = true
    ∧ conf_location c2 = location
    ∧ conf_occupied c2 = b2
    ∧ occupancy_status (agent w2)
      = <[location := b2]> (occupancy_status (agent w))
    ∧ devices (agent w2) = devices (agent w)
    ∧ contextual_rules (agent w2) = contextual_rules (agent w).
Proof.
  unfold set_occupancy_status. run.
  do 4 eexists. split; [reflexivity|]. split; [reflexivity|]. simpl.
  repeat split. apply insert_insert_eq.
Qed.

(** X18. Right after [set_occupancy_status(location, occupied)], the
    away-mode suggestion is produced exactly when [occupied] is [False]
    and no other location is recorded as occupied; in particular never
    after a location was set to occupied. *)
Theorem occupancy_drives_away_mode (location : string) (occupied : bool)
  (w : World) :
  ∃ suggestions w',
    (set_occupancy_status location occupied;; get_contextual_suggestions) w
    = (Ret suggestions, w')
    ∧ (security_suggestion ∈ suggestions
       ↔ occupied = false
         ∧ ∀ loc, loc ≠ location →
             occupancy_status (agent w) !! loc ≠ Some true).
Proof.
  unfold set_occupancy_status, get_contextual_suggestions. run.
  do 2 eexists. split; [reflexivity|].
  assert (Hany :
    any_value (<[location := occupied]> (occupancy_status (agent w))) = false
    ↔ occupied = false
      ∧ ∀ loc, loc ≠ location →
          occupancy_status (agent w) !! loc ≠ Some true).
  { rewrite <- not_true_iff_false, any_value_true. split.
    - intros Hno. split.
      + destruct occupied; [|done]. exfalso. apply Hno.
        exists location. apply lookup_insert_eq.
      + intros loc Hne Hloc. apply Hno. exists loc.
        by rewrite lookup_insert_ne.
    - intros [-> Hno] (loc & Hloc).
      destruct (decide (location = loc)) as [<-|Hne].
      + by rewrite lookup_insert_eq in Hloc.
      + rewrite lookup_insert_ne in Hloc by done. by apply (Hno loc). }
  rewrite <- Hany.
  destruct (between (time_hm 6 0) _ (time_hm 9 0));
    [|destruct (between (time_hm 18 0) _ (time_hm 22 0));
      [|destruct (between (time_hm 22 0) _ (time_hm 23 0))]];
    destruct (any_value _); case_decide; simpl;
    (split; intros Hx; try done;
     try (exfalso; revert Hx; compute_done); compute_done).
Qed.

(** ** Listing devices *)

Lemma list_devices_loop_elem (ds : list Device)
  (device_type location : option string) :
  ∀ filtered d,
    d ∈ list_devices_loop ds device_type location filtered
    ↔ d ∈ filtered ∨ (d ∈ ds ∧ listed device_type location d).
Proof.
  induction ds as [|x ds IH]; intros filtered d; simpl.
  { rewrite elem_of_nil. tauto. }
  assert (Hx : listed device_type location x
               ↔ (given device_type
                  && negb (bool_decide
                             (Some (DeviceType_value (Device.type x))
                              = device_type)) = false)
                 ∧ (given location
                    && negb (bool_decide
                               (Some (Device.location x) = location))
                    = false)).
  { unfold listed.
    rewrite !andb_false_iff, !negb_false_iff, !bool_decide_eq_true.
    destruct (given device_type), (given location);
      intuition (try discriminate; try congruence). }
  destruct (given device_type && _) eqn:E1;
    [|destruct (given location && _) eqn:E2].
  - assert (Hno : ¬ listed device_type location x)
      by (rewrite Hx; intros [? ?]; congruence).
    rewrite IH, elem_of_cons. split; [tauto|].
    intros [?|[[->|?] ?]]; tauto.
  - assert (Hno : ¬ listed device_type location x)
      by (rewrite Hx; intros [? ?]; congruence).
    rewrite IH, elem_of_cons. split; [tauto|].
    intros [?|[[->|?] ?]]; tauto.
  - assert (Hyes : listed device_type location x) by (by apply Hx).
    rewrite IH, elem_of_app, !elem_of_cons, elem_of_nil. split.
    + intros [[?|[->|[]]]|?]; tauto.
    + intros [?|[[->|?] ?]]; tauto.
Qed.

(** X19. [list_devices] leaves the world as it was and returns exactly
    the registered devices that pass both filters, a filter that is
    absent or empty letting every device through; it returns no more
    entries than the registry has keys. *)
Theorem list_devices_elem (device_type location : option string)
  (w : World) :
  ∃ listing,
    list_devices device_type location w = (Ret listing, w)
    ∧ (∀ d, d ∈ listing
            ↔ (∃ k, devices (agent w) !! k = Some d)
              ∧ listed device_type location d)
    ∧ length listing ≤ size (devices (agent w)).
Proof.
  unfold list_devices, gets. eexists. split; [reflexivity|]. split.
  - intros d. rewrite list_devices_loop_elem, elem_of_nil.
    rewrite list_elem_of_fmap. split.
    + intros [[]|[([k d'] & -> & Hin) Hl]]. split; [|done].
      exists k. by apply elem_of_map_to_list.
    + intros [(k & Hk) Hl]. right. split; [|done].
      exists (k, d). split; [done|]. by apply elem_of_map_to_list.
  - rewrite <- length_map_to_list, <- (length_fmap snd).
    generalize ((map_to_list (devices (agent w))).*2).
    intros ds.
    enough (∀ acc, length (list_devices_loop ds device_type location acc)
                   ≤ length acc + length ds) as H by apply (H []).
    induction ds as [|x ds IH]; intros acc; simpl; [lia|].
    repeat case_match; try (specialize (IH acc); lia).
    specialize (IH (acc ++ [x])). rewrite length_app in IH. simpl in IH. lia.
Qed.

Lemma list_devices_loop_not_given (ds : list Device)
  (t1 t2 l1 l2 : option string) :
  (t1 = t2 ∨ (given t1 = false ∧ given t2 = false)) →
  (l1 = l2 ∨ (given l1 = false ∧ given l2 = false)) →
  ∀ acc, list_devices_loop ds t1 l1 acc = list_devices_loop ds t2 l2 acc.
Proof.
  intros Ht Hl. induction ds as [|x ds IH]; intros acc; simpl; [done|].
  destruct Ht as [<-|[-> ->]], Hl as [<-|[-> ->]]; simpl;
    repeat case_match; apply IH.
Qed.

(** X20. An empty string given as the type filter or as the location
    filter is handled as no filter at all, not as a filter that nothing
    matches. *)
Theorem list_devices_empty_filter (device_type location : option string)
  (w : World) :
  list_devices (Some "") location w = list_devices None location w
  ∧ list_devices device_type (Some "") w = list_devices device_type None w.
Proof.
  split; unfold list_devices, gets; do 2 f_equal;
    apply list_devices_loop_not_given; auto.
Qed.

(** ** Initial state *)

(** X21. Under every clock, a freshly constructed agent holds eight
    devices, each registered under its own id, satisfying the two
    registry invariants; no occupancy is recorded, and the clock has
    been read eight times. *)
Theorem init_registry (clk : nat → datetime) :
  let w := init clk in
  registry_ok (devices (agent w))
  ∧ map_Forall (λ k d, Device.id d = k) (devices (agent w))
  ∧ size (devices (agent w)) = 8
  ∧ occupancy_status (agent w) = ∅
  ∧ clock w = clk ∧ ticks w = 8.
Proof.
  unfold registry_ok.
  split; [|split; [|split; [|split; [|split]]]].
  - apply (bool_decide_unpack _). vm_compute. reflexivity.
  - apply (bool_decide_unpack _). vm_compute. reflexivity.
  - vm_compute. reflexivity.
  - vm_compute. reflexivity.
  - reflexivity.
  - vm_compute. reflexivity.
Qed.

(** X22. Under every clock, each of the four default rules is stored
    under its own id and, executed on a freshly constructed agent,
    completes every one of its actions successfully. *)
Theorem default_rules_complete (clk : nat → datetime)
  (rule : ContextualRule) :
  rule ∈ default_rules →
  contextual_rules (agent (init clk)) !! ContextualRule.id rule = Some rule
  ∧ ∃ results w',
      execute_contextual_rule (ContextualRule.id rule) (init clk)
      = (Ret (RuleSuccess (ContextualRule.name rule) results
                (length (ContextualRule.actions rule))), w')
      ∧ Forall (λ r, success r = true) results.
Proof.
  intros Hin.
  assert (H : contextual_rules (agent (init clk)) !! ContextualRule.id rule
              = Some rule
              ∧ ContextualRule.enabled rule = true
              ∧ Forall (λ a, a !! "self" = None) (ContextualRule.actions rule)
              ∧ filter (λ a, dispatched (devices (agent (init clk))) a)
                  (ContextualRule.actions rule)
                = ContextualRule.actions rule).
  { revert Hin. unfold default_rules. rewrite !elem_of_cons, elem_of_nil.
    intros [->|[->|[->|[->|[]]]]];
      (split; [vm_compute; reflexivity|]); (split; [reflexivity|]);
      (split; [|vm_compute; reflexivity]);
      apply (bool_decide_unpack _); vm_compute; reflexivity. }
  destruct H as (Hrule & Hon & Hself & Hall).
  split; [done|].
  destruct (run_actions_results (devices (agent (init clk))) _ Hself []
              (init clk) (similar_refl _))
    as (results & w' & Hrun & Hans & _).
  simpl in Hrun. rewrite Hall in Hans. exists results, w'. split.
  - unfold execute_contextual_rule.
    erewrite bind_Ret by (unfold gets; reflexivity).
    rewrite Hrule, Hon. erewrite bind_Ret by exact Hrun.
    by rewrite (Forall2_length _ _ _ Hans).
  - eapply Forall2_Forall_r; [exact Hans|].
    apply Forall_true. intros a r (d & m & d' & _ & -> & _). done.
Qed.

Lemma default_rules_complete_witness :
  contextual_rules (agent (init (clock_at 7 30)))
    !! ContextualRule.id morning_routine = Some morning_routine
  ∧ ∃ results w',
      execute_contextual_rule (ContextualRule.id morning_routine)
        (init (clock_at 7 30))
      = (Ret (RuleSuccess (ContextualRule.name morning_routine) results
                (length (ContextualRule.actions morning_routine))), w')
      ∧ Forall (λ r, success r = true) results.
Proof.
  apply (default_rules_complete (clock_at 7 30) morning_routine).
  unfold default_rules. rewrite !elem_of_cons. auto.
Defined.
